(** * GetCsvInfo: the pattern classifier (refactor_csv.py) and the column
    projector (useless_process_csv.py), embedded in Rocq.

    Python values are modelled as the code sees them: a [str] is a sequence of
    Unicode code points, a pandas cell is a tagged value, a dict used only for
    lookups is a [gmap], the ordered [pattern_mapping] is an association
    list, and the logger is the list of records it has received. *)

From Stdlib Require Import NArith Ascii String.
From stdpp Require Import gmap list.

Local Open Scope N_scope.

(** ** Python [str] *)

(** A Python string is a sequence of code points. *)
Abbreviation str := (list N).

(** An ASCII literal of the source, as a [str]. *)
Definition py (s : string) : str := N_of_ascii <$> list_ascii_of_string s.

(** [str.isspace] on one code point (the whitespace set of CPython's
    [Py_UNICODE_ISSPACE]). *)
Definition isspace (c : N) : bool :=
  (9 <=? c) && (c <=? 13) || (28 <=? c) && (c <=? 32)
  || (c =? 0x85) || (c =? 0xA0) || (c =? 0x1680)
  || (0x2000 <=? c) && (c <=? 0x200A)
  || (c =? 0x2028) || (c =? 0x2029) || (c =? 0x202F)
  || (c =? 0x205F) || (c =? 0x3000).

(** [s.lstrip()], [s.rstrip()] and [s.strip()] without arguments. *)
Fixpoint lstrip (s : str) : str :=
  match s with
  | c :: s' => if isspace c then lstrip s' else s
  | [] => []
  end.

Definition rstrip (s : str) : str := reverse (lstrip (reverse s)).

Definition strip (s : str) : str := rstrip (lstrip s).

(** [p] is an initial segment of [s] ([s.startswith(p)]). *)
Fixpoint startswith (s p : str) {struct p} : bool :=
  match p, s with
  | [], _ => true
  | a :: p', b :: s' => (a =? b) && startswith s' p'
  | _ :: _, [] => false
  end.

(** [k in name] for two strings: [k] occurs as a substring of [name]. *)
Fixpoint str_in (k name : str) : bool :=
  startswith name k ||
  match name with
  | [] => false
  | _ :: name' => str_in k name'
  end.

(** [k] occurs in [name], as a proposition. *)
Definition substring (k name : str) : Prop :=
  exists pre post, name = pre ++ k ++ post.

(** [s.rfind(c)] for a one-character needle: the last index of [c]. *)
Fixpoint rfind (s : str) (c : N) : option nat :=
  match s with
  | [] => None
  | a :: s' =>
      match rfind s' c with
      | Some i => Some (S i)
      | None => if a =? c then Some 0%nat else None
      end
  end.

(** [s.encode("utf-8")]: the bytes of a string of Unicode scalar values. *)
Definition utf8_char (c : N) : list N :=
  if c <? 0x80 then [c]
  else if c <? 0x800 then
    [N.lor 0xC0 (N.shiftr c 6); N.lor 0x80 (N.land c 0x3F)]
  else if c <? 0x10000 then
    [N.lor 0xE0 (N.shiftr c 12);
     N.lor 0x80 (N.land (N.shiftr c 6) 0x3F);
     N.lor 0x80 (N.land c 0x3F)]
  else
    [N.lor 0xF0 (N.shiftr c 18);
     N.lor 0x80 (N.land (N.shiftr c 12) 0x3F);
     N.lor 0x80 (N.land (N.shiftr c 6) 0x3F);
     N.lor 0x80 (N.land c 0x3F)].

Definition encode_utf8 (s : str) : list N := s ≫= utf8_char.

(** ** [hashlib.md5] (RFC 1321) on a list of bytes *)

Module MD5.

Definition add32 (a b : N) : N := (a + b) mod 2 ^ 32.

Definition not32 (a : N) : N := N.lxor a 0xFFFFFFFF.

Definition rotl32 (x c : N) : N :=
  N.lor (N.shiftl x c mod 2 ^ 32) (N.shiftr x (32 - c)).

(** Per-round shift amounts. *)
Definition S_table : list N :=
  [7; 12; 17; 22; 7; 12; 17; 22; 7; 12; 17; 22; 7; 12; 17; 22;
   5; 9; 14; 20; 5; 9; 14; 20; 5; 9; 14; 20; 5; 9; 14; 20;
   4; 11; 16; 23; 4; 11; 16; 23; 4; 11; 16; 23; 4; 11; 16; 23;
   6; 10; 15; 21; 6; 10; 15; 21; 6; 10; 15; 21; 6; 10; 15; 21].

(** [K_table !! i = floor (2^32 * abs (sin (i + 1)))]. *)
Definition K_table : list N :=
  [0xd76aa478; 0xe8c7b756; 0x242070db; 0xc1bdceee;
   0xf57c0faf; 0x4787c62a; 0xa8304613; 0xfd469501;
   0x698098d8; 0x8b44f7af; 0xffff5bb1; 0x895cd7be;
   0x6b901122; 0xfd987193; 0xa679438e; 0x49b40821;
   0xf61e2562; 0xc040b340; 0x265e5a51; 0xe9b6c7aa;
   0xd62f105d; 0x02441453; 0xd8a1e681; 0xe7d3fbc8;
   0x21e1cde6; 0xc33707d6; 0xf4d50d87; 0x455a14ed;
   0xa9e3e905; 0xfcefa3f8; 0x676f02d9; 0x8d2a4c8a;
   0xfffa3942; 0x8771f681; 0x6d9d6122; 0xfde5380c;
   0xa4beea44; 0x4bdecfa9; 0xf6bb4b60; 0xbebfbc70;
   0x289b7ec6; 0xeaa127fa; 0xd4ef3085; 0x04881d05;
   0xd9d4d039; 0xe6db99e5; 0x1fa27cf8; 0xc4ac5665;
   0xf4292244; 0x432aff97; 0xab9423a7; 0xfc93a039;
   0x655b59c3; 0x8f0ccc92; 0xffeff47d; 0x85845dd1;
   0x6fa87e4f; 0xfe2ce6e0; 0xa3014314; 0x4e0811a1;
   0xf7537e82; 0xbd3af235; 0x2ad7d2bb; 0xeb86d391].

Record state := State { sa : N; sb : N; sc : N; sd : N }.

Definition init : state :=
  State 0x67452301 0xefcdab89 0x98badcfe 0x10325476.

(** The message with its padding: a 1 bit, zeros up to 56 mod 64 bytes, then
    the bit length as a 64-bit little-endian integer. *)
Definition le_bytes (n : nat) (x : N) : list N :=
  (fun i => N.shiftr x (8 * N.of_nat i) mod 256) <$> seq 0 n.

Definition pad (msg : list N) : list N :=
  let len := N.of_nat (length msg) in
  let zeros := N.to_nat ((55 + 64 - len mod 64) mod 64) in
  msg ++ [0x80] ++ replicate zeros 0 ++ le_bytes 8 ((8 * len) mod 2 ^ 64).

Definition word_of_bytes (bs : list N) : N :=
  foldr (fun b acc => b + 256 * acc) 0 bs.

(** The [n] consecutive [k]-element chunks of a list. *)
Fixpoint chunks {A} (k n : nat) (l : list A) : list (list A) :=
  match n with
  | O => []
  | S n' => take k l :: chunks k n' (drop k l)
  end.

Definition step (M : list N) (st : state) (i : nat) : state :=
  let '(State A B C D) := st in
  let j := N.of_nat i in
  let '(F, g) :=
    if j <? 16 then (N.lor (N.land B C) (N.land (not32 B) D), j)
    else if j <? 32 then
      (N.lor (N.land D B) (N.land (not32 D) C), (5 * j + 1) mod 16)
    else if j <? 48 then (N.lxor B (N.lxor C D), (3 * j + 5) mod 16)
    else (N.lxor C (N.lor B (not32 D)), (7 * j) mod 16) in
  let F' := add32 (add32 (add32 F A) (K_table !!! i)) (M !!! N.to_nat g) in
  State D (add32 B (rotl32 F' (S_table !!! i))) B C.

Definition block (st : state) (blk : list N) : state :=
  let M := word_of_bytes <$> chunks 4 16 blk in
  let '(State A B C D) := foldl (step M) st (seq 0 64) in
  State (add32 (sa st) A) (add32 (sb st) B)
        (add32 (sc st) C) (add32 (sd st) D).

Definition digest (msg : list N) : list N :=
  let p := pad msg in
  let '(State A B C D) := foldl block init (chunks 64 (length p / 64) p) in
  le_bytes 4 A ++ le_bytes 4 B ++ le_bytes 4 C ++ le_bytes 4 D.

Definition hex_digit (d : N) : N := if d <? 10 then 48 + d else 87 + d.

(** [hashlib.md5(msg).hexdigest()]: 32 lowercase hexadecimal digits. *)
Definition hexdigest (msg : list N) : str :=
  digest msg ≫= (fun b => [hex_digit (b / 16); hex_digit (b mod 16)]).

End MD5.

(** ** [re.match] *)

(** What [re.match(pattern, string)] does inside [try ... except re.error]:
    it returns a match object, returns [None], or raises [re.error]. *)
Inductive re_result := ReMatch | ReNoMatch | ReError.

(** A model of CPython's [re] for the patterns built from literal
    characters, [.], [^], [$], [*], [+], [?], [|], groups [( )] and escaped
    punctuation.  [parse] follows [sre_parse] left to right and tells apart
    the patterns on which [re.compile] raises [re.error] ([Malformed]) from
    the ones outside this fragment ([Unsupported]: classes, counted
    repetition, possessive quantifiers, group extensions, letter and digit
    escapes). *)
Module PyRe.

Inductive regex :=
| Eps
| Sym (c : N)
| Dot
| Bol
| Eol
| Cat (r1 r2 : regex)
| Alt (r1 r2 : regex)
| Star (r : regex).


(** The end positions of the iterations of a step that makes progress; an
    iteration that consumes nothing adds no position. *)
Fixpoint star_ends (step : nat -> list nat) (fuel i : nat) : list nat :=
  i :: match fuel with
       | O => []
       | S fuel' =>
           filter (fun k => (i < k)%nat) (step i) ≫= star_ends step fuel'
       end.

(** All [j] such that [r] matches [s[i:j]]: what a backtracking matcher can
    reach from [i]. *)
Fixpoint ends (s : str) (r : regex) (i : nat) : list nat :=
  match r with
  | Eps => [i]
  | Sym c =>
      match s !! i with
      | Some d => if d =? c then [S i] else []
      | None => []
      end
  | Dot =>
      match s !! i with
      | Some d => if d =? 10 then [] else [S i]
      | None => []
      end
  | Bol => match i with O => [i] | S _ => [] end
  | Eol =>
      if bool_decide (i = length s)
         || bool_decide (S i = length s) && bool_decide (s !! i = Some 10)
      then [i] else []
  | Cat r1 r2 => ends s r1 i ≫= ends s r2
  | Alt r1 r2 => ends s r1 i ++ ends s r2 i
  | Star r' => star_ends (ends s r') (length s) i
  end.

(** The last item of the branch being parsed: an atom, an anchor, a
    repetition that may still take a [?] suffix, or a lazy repetition. *)
Inductive kind := KAtom | KAt | KRep | KLazy.

Record frame := Frame {
  alts : list regex;            (* finished branches, last first *)
  items : list (regex * kind)   (* items of the open branch, last first *)
}.

Definition empty_frame : frame := Frame [] [].

Definition branch_regex (its : list (regex * kind)) : regex :=
  foldl (fun acc it => Cat it.1 acc) Eps its.

Definition frame_regex (f : frame) : regex :=
  foldl (fun acc b => Alt b acc) (branch_regex (items f)) (alts f).

Definition push_item (f : frame) (it : regex * kind) : frame :=
  Frame (alts f) (it :: items f).

Definition new_branch (f : frame) : frame :=
  Frame (branch_regex (items f) :: alts f) [].

Definition ch (a : ascii) : N := N_of_ascii a.

Definition quantified (c : N) (r : regex) : regex :=
  if c =? ch "*" then Star r
  else if c =? ch "+" then Cat r (Star r)
  else Alt r Eps.

Definition is_alnum (c : N) : bool :=
  (48 <=? c) && (c <=? 57) || (65 <=? c) && (c <=? 90)
  || (97 <=? c) && (c <=? 122).

Inductive parsed := Compiled (r : regex) | Malformed | Unsupported.

Fixpoint parse_loop (p : str) (cur : frame) (stack : list frame) : parsed :=
  match p with
  | [] =>
      match stack with
      | [] => Compiled (frame_regex cur)
      | _ :: _ => Malformed            (* missing ), unterminated subpattern *)
      end
  | c :: p' =>
      if c =? ch "(" then
        match p' with
        | d :: _ =>
            if d =? ch "?" then Unsupported
            else parse_loop p' empty_frame (cur :: stack)
        | [] => parse_loop p' empty_frame (cur :: stack)
        end
      else if c =? ch ")" then
        match stack with
        | [] => Malformed              (* unbalanced parenthesis *)
        | parent :: stack' =>
            parse_loop p' (push_item parent (frame_regex cur, KAtom)) stack'
        end
      else if c =? ch "|" then parse_loop p' (new_branch cur) stack
      else if (c =? ch "*") || (c =? ch "+") || (c =? ch "?") then
        match items cur with
        | [] => Malformed              (* nothing to repeat *)
        | (_, KAt) :: _ => Malformed   (* nothing to repeat *)
        | (r, KAtom) :: its =>
            parse_loop p' (Frame (alts cur) ((quantified c r, KRep) :: its))
                       stack
        | (r, KRep) :: its =>
            if c =? ch "?" then
              parse_loop p' (Frame (alts cur) ((r, KLazy) :: its)) stack
            else if c =? ch "+" then Unsupported
            else Malformed             (* multiple repeat *)
        | (_, KLazy) :: _ => Malformed (* multiple repeat *)
        end
      else if c =? 92 then
        match p' with
        | [] => Malformed              (* bad escape (end of pattern) *)
        | d :: p'' =>
            if is_alnum d then Unsupported
            else parse_loop p'' (push_item cur (Sym d, KAtom)) stack
        end
      else if (c =? ch "[") || (c =? ch "{") then Unsupported
      else if c =? ch "." then parse_loop p' (push_item cur (Dot, KAtom)) stack
      else if c =? ch "^" then parse_loop p' (push_item cur (Bol, KAt)) stack
      else if c =? ch "$" then parse_loop p' (push_item cur (Eol, KAt)) stack
      else parse_loop p' (push_item cur (Sym c, KAtom)) stack
  end.

Definition parse (p : str) : parsed := parse_loop p empty_frame [].

(** [re.match(p, s)]: compile [p], then look for a match of it that starts at
    position 0 of [s], wherever it ends.  On a pattern outside the fragment
    the model has no answer of its own and reports [ReError]. *)
Definition re_match (p s : str) : re_result :=
  match parse p with
  | Compiled r =>
      match ends s r 0 with
      | [] => ReNoMatch
      | _ :: _ => ReMatch
      end
  | Malformed | Unsupported => ReError
  end.

(** [re.fullmatch(p, s)], for comparison: the match must end at [len(s)]. *)
Definition re_fullmatch (p s : str) : re_result :=
  match parse p with
  | Compiled r =>
      if bool_decide (length s ∈ ends s r 0) then ReMatch else ReNoMatch
  | Malformed | Unsupported => ReError
  end.

End PyRe.

(** ** pandas values and the logger *)

(** A scalar held by a table cell or a dict value.  [CNone] is Python's
    [None], [CNaN] the missing-value float; [CNum] stands for any other
    non-string scalar (int, float, bool) and carries the text [str] gives
    for it. *)
Inductive cell :=
| CNone
| CNaN
| CStr (s : str)
| CNum (repr : str).

#[global] Instance cell_eq_dec : EqDecision cell.
Proof. solve_decision. Defined.

(** [str(v)] *)
Definition py_str (v : cell) : str :=
  match v with
  | CNone => py "None"
  | CNaN => py "nan"
  | CStr s => s
  | CNum repr => repr
  end.

(** [pd.isna(v)] on a scalar *)
Definition isna (v : cell) : bool :=
  match v with
  | CNone | CNaN => true
  | CStr _ | CNum _ => false
  end.

(** The position of a label in an index. *)
Fixpoint index_of (key : str) (labels : list str) : option nat :=
  match labels with
  | [] => None
  | l :: labels' =>
      if bool_decide (l = key) then Some 0%nat
      else S <$> index_of key labels'
  end.

(** A row as [iterrows] yields it: the column labels and the row's values. *)
Record Series := { index : list str; values : list cell }.

(** The value at position [i]; a row shorter than the header is padded
    with missing values, as [read_csv] does. *)
Definition iloc (row : Series) (i : nat) : cell :=
  default CNaN (values row !! i).

(** [row[key]]: [None] here stands for the [KeyError]. *)
Definition getitem (row : Series) (key : str) : option cell :=
  iloc row <$> index_of key (index row).

(** [row.get(key)]: Python's [None] when the label is absent. *)
Definition series_get (row : Series) (key : str) : cell :=
  default CNone (getitem row key).

Record DataFrame := { df_columns : list str; df_rows : list (list cell) }.

Definition iterrows (df : DataFrame) : list Series :=
  (fun vals => {| index := df_columns df; values := vals |}) <$> df_rows df.

(** [df[label] = v] for a label that is not a column yet. *)
Definition add_column (df : DataFrame) (label : str) (v : cell) : DataFrame :=
  {| df_columns := df_columns df ++ [label];
     df_rows := (fun vals => vals ++ [v]) <$> df_rows df |}.

(** [df[labels]] for labels that all are columns of [df]. *)
Definition select (df : DataFrame) (labels : list str) : DataFrame :=
  {| df_columns := labels;
     df_rows := (fun row => series_get row <$> labels) <$> iterrows df |}.

(** [pd.DataFrame(records)[cols]] for a list of dicts; a key missing from
    a record gives a missing value. *)
Definition of_records (records : list (gmap str cell)) (cols : list str)
  : DataFrame :=
  {| df_columns := cols;
     df_rows :=
       (fun r => (fun c => default CNaN (r !! c)) <$> cols) <$> records |}.

Inductive level := INFO | WARNING | ERROR.

(** The messages of both scripts, by what they report. *)
Inductive message :=
| ReadingFile
| MissingContentColumn
| RegexError (regex : str)
| SavedRecords (n : nat)
| NoMatchFound
| FileFailed
| MissingColumns (cols : list str)
| NoRequestedColumn
| SavedTable (ncols nrows : nat)
| ProcessingFile (keyword : str)
| Description (text : str)
| KeywordNotConfigured (keyword : str)
| NoColumnsConfigured
| ExtractingColumns (cols : list str).

Abbreviation log_record := (level * message)%type.

(** ** Logging and exceptions *)

(** A computation logs records and then returns a value or raises. *)
Definition M (A : Type) : Type := list log_record * option A.

Definition ret {A} (a : A) : M A := ([], Some a).

Definition raise {A} : M A := ([], None).

Definition logger (lvl : level) (msg : message) : M unit :=
  ([(lvl, msg)], Some tt).

Definition bind {A B} (m : M A) (f : A -> M B) : M B :=
  match m.2 with
  | Some a => (m.1 ++ (f a).1, (f a).2)
  | None => (m.1, None)
  end.

(** [try: body except Exception: handler] *)
Definition try_except {A} (body handler : M A) : M A :=
  match body.2 with
  | Some _ => body
  | None => (body.1 ++ handler.1, handler.2)
  end.

Notation "x <- m ;; k" := (bind m (fun x => k))
  (at level 100, m at next level, right associativity).
Notation "m ;;; k" := (bind m (fun _ => k))
  (at level 100, right associativity).

(** ** refactor_csv.py *)

Module RefactorCsv.

(** [generate_hash(row)] for a dict [row]: [row.get(key, "")] falls back to
    the empty string only when the key is absent. *)
Definition generate_hash (row : gmap str cell) : str :=
  let content := py_str (default (CStr []) (row !! py "content")) in
  let x := py_str (default (CStr []) (row !! py "x")) in
  let y := py_str (default (CStr []) (row !! py "y")) in
  let z := py_str (default (CStr []) (row !! py "z")) in
  let layer := py_str (default (CStr []) (row !! py "layer")) in
  let raw_str := content ++ x ++ y ++ z ++ layer in
  MD5.hexdigest (encode_utf8 raw_str).

(** One entry of [pattern_mapping]; a key that is absent or null reads as
    [None] through [pattern_config.get]. *)
Record pattern_config := {
  code : option str;
  abbreviation : option str
}.

(** Truth value of what [dict.get] returned: [None] and [""] are false. *)
Definition truthy (v : option str) : bool :=
  match v with
  | Some (_ :: _) => true
  | Some [] | None => false
  end.

(** The dict built in either branch, before and after its [id] is added. *)
Definition base_item (content_str : str) (row : Series) : gmap str cell :=
  <[py "style" := series_get row (py "style")]>
  (<[py "layer" := series_get row (py "layer")]>
  (<[py "z" := series_get row (py "z")]>
  (<[py "y" := series_get row (py "y")]>
  (<[py "x" := series_get row (py "x")]>
  (<[py "content" := CStr content_str]> ∅))))).

Definition make_item (content_str : str) (row : Series) : gmap str cell :=
  let item := base_item content_str row in
  <[py "id" := CStr (generate_hash item)]> item.

Section Classifier.

Variable re_match : str -> str -> re_result.

(** What one iteration of the rule loop does with the row. *)
Inductive verdict :=
| Skipped          (* no regex: [continue] *)
| CodeHit          (* [re.match] succeeded *)
| AbbreviationHit  (* the [elif] branch *)
| Miss             (* neither branch *)
| BadRegex.        (* [re.error] caught *)

Definition test_pattern (pattern_config : pattern_config) (content_str : str)
  : verdict :=
  let regex := code pattern_config in
  let abbreviation := abbreviation pattern_config in
  if negb (truthy regex) then Skipped
  else
    match re_match (default [] regex) content_str with
    | ReError => BadRegex
    | ReMatch => CodeHit
    | ReNoMatch =>
        if truthy abbreviation
           && bool_decide (Some content_str = abbreviation)
        then AbbreviationHit else Miss
    end.

Definition is_hit (v : verdict) : bool :=
  match v with
  | CodeHit | AbbreviationHit => true
  | Skipped | Miss | BadRegex => false
  end.

(** The loop over [patterns.items()] for one row: the items it appends to
    [results]. *)
Fixpoint match_patterns (patterns : list (str * pattern_config))
    (content_str : str) (row : Series) : M (list (gmap str cell)) :=
  match patterns with
  | [] => ret []
  | (_, pattern_config) :: rest =>
      match test_pattern pattern_config content_str with
      | Skipped | Miss => match_patterns rest content_str row
      | CodeHit | AbbreviationHit => ret [make_item content_str row]
      | BadRegex =>
          logger ERROR (RegexError (default [] (code pattern_config))) ;;;
          match_patterns rest content_str row
      end
  end.

(** The body of [for _, row in df.iterrows()]. *)
Definition classify_row (patterns : list (str * pattern_config))
    (row : Series) : M (list (gmap str cell)) :=
  match getitem row (py "content") with
  | None => raise
  | Some content =>
      if isna content || bool_decide (content = CStr []) then ret []
      else
        let content_str := strip (py_str content) in
        match_patterns patterns content_str row
  end.

Fixpoint classify_rows (patterns : list (str * pattern_config))
    (rows : list Series) : M (list (gmap str cell)) :=
  match rows with
  | [] => ret []
  | row :: rows' =>
      items <- classify_row patterns row ;;
      results <- classify_rows patterns rows' ;;
      ret (items ++ results)
  end.

(** What the rules of [patterns] with a malformed regex log for a row. *)
Definition regex_errors (patterns : list (str * pattern_config))
    (content_str : str) : list log_record :=
  patterns ≫= (fun p =>
    match test_pattern p.2 content_str with
    | BadRegex => [(ERROR, RegexError (default [] (code p.2)))]
    | _ => []
    end).

Definition cols : list str :=
  [py "id"; py "content"; py "x"; py "y"; py "z"; py "layer"; py "style"].

(** [if "style" not in df.columns: df["style"] = None] *)
Definition ensure_style (df : DataFrame) : DataFrame :=
  if bool_decide (py "style" ∈ df_columns df) then df
  else add_column df (py "style") CNone.

(** The items one row adds to [results]. *)
Definition emitted (patterns : list (str * pattern_config)) (row : Series)
  : list (gmap str cell) :=
  default [] (classify_row patterns row).2.

(** [process_csv_file] from the table [pd.read_csv] returned: the log, and
    the table written to [output_file] if one is. *)
Definition process_csv_file (df : DataFrame)
    (patterns : list (str * pattern_config)) : M (option DataFrame) :=
  try_except
    (logger INFO ReadingFile ;;;
     let df := ensure_style df in
     if negb (bool_decide (py "content" ∈ df_columns df)) then
       logger WARNING MissingContentColumn ;;;
       ret None
     else
       results <- classify_rows patterns (iterrows df) ;;
       match results with
       | _ :: _ =>
           let result_df := of_records results cols in
           logger INFO (SavedRecords (length (df_rows result_df))) ;;;
           ret (Some result_df)
       | [] =>
           logger INFO NoMatchFound ;;;
           ret None
       end)
    (logger ERROR FileFailed ;;;
     ret None).

End Classifier.

End RefactorCsv.

(** ** useless_process_csv.py *)

Module UselessProcessCsv.

(** [Path(filename).name] on a POSIX path: the last component that is
    neither empty nor [.]. *)
Fixpoint split_sep (s : str) (cur : str) : list str :=
  match s with
  | [] => [reverse cur]
  | c :: s' =>
      if c =? 47 then reverse cur :: split_sep s' []
      else split_sep s' (c :: cur)
  end.

Definition path_name (filename : str) : str :=
  let parts :=
    List.filter (fun x => negb (bool_decide (x = []))
                          && negb (bool_decide (x = py ".")))
                (split_sep filename []) in
  default [] (last parts).

(** [Path(filename).stem]: the name up to its last dot, unless that dot is
    the first or the last character. *)
Definition stem (filename : str) : str :=
  let name := path_name filename in
  match rfind name 46 with
  | Some i =>
      if (0 <? i)%nat && (i <? length name - 1)%nat then take i name
      else name
  | None => name
  end.

(** The four characters shared by every keyword (U+80FD U+8017 U+8BA1
    U+91CF). *)
Definition energy_metering : str := [0x80FD; 0x8017; 0x8BA1; 0x91CF].

Definition keywords : list str :=
  [py "L3M2" ++ energy_metering;
   py "L3M1" ++ energy_metering;
   py "L2M" ++ energy_metering;
   py "L1M2" ++ energy_metering;
   py "L1M1" ++ energy_metering;
   py "B2" ++ energy_metering;
   py "B1" ++ energy_metering;
   py "L3" ++ energy_metering;
   py "L2" ++ energy_metering;
   py "L1" ++ energy_metering].

(** The [for keyword in keywords] loop with its fall-through return. *)
Fixpoint first_keyword (keywords : list str) (name : str) : str :=
  match keywords with
  | [] => py "default"
  | keyword :: rest =>
      if str_in keyword name then keyword else first_keyword rest name
  end.

Definition get_file_keyword (filename : str) : str :=
  let name := stem filename in
  first_keyword keywords name.

(** [process_csv_file] from the table [pd.read_csv] returned: the log, and
    the table written to [output_file] if one is. *)
Definition process_csv_file (df : DataFrame) (columns : list str)
  : M (option DataFrame) :=
  try_except
    (logger INFO ReadingFile ;;;
     let available_columns := df_columns df in
     let missing_columns :=
       filter (fun col => col ∉ available_columns) columns in
     (match missing_columns with
      | _ :: _ => logger WARNING (MissingColumns missing_columns)
      | [] => ret tt
      end) ;;;
     let existing_columns :=
       filter (fun col => col ∈ available_columns) columns in
     match existing_columns with
     | [] =>
         logger ERROR NoRequestedColumn ;;;
         ret None
     | _ :: _ =>
         let df_filtered := select df existing_columns in
         logger INFO (SavedTable (length existing_columns)
                                 (length (df_rows df_filtered))) ;;;
         ret (Some df_filtered)
     end)
    (logger ERROR FileFailed ;;;
     ret None).

(** One entry of [csv_columns_mapping]. *)
Record mapping_entry := {
  entry_columns : list str;
  entry_description : option str
}.

(** The column list [main] resolves for a keyword. *)
Definition resolve_columns (csv_mapping : gmap str mapping_entry)
    (keyword : str) : M (list str) :=
  match csv_mapping !! keyword with
  | Some entry =>
      logger INFO (Description (default [] (entry_description entry))) ;;;
      ret (entry_columns entry)
  | None =>
      logger WARNING (KeywordNotConfigured keyword) ;;;
      ret (default [] (entry_columns <$> csv_mapping !! py "default"))
  end.

(** The body of [for csv_file in csv_files] in [main], on the file's name
    and the table read from it. *)
Definition main_step (csv_mapping : gmap str mapping_entry)
    (name : str) (df : DataFrame) : M (option DataFrame) :=
  let keyword := get_file_keyword name in
  logger INFO (ProcessingFile keyword) ;;;
  columns <- resolve_columns csv_mapping keyword ;;
  match columns with
  | [] =>
      logger WARNING NoColumnsConfigured ;;;
      ret None
  | _ :: _ =>
      logger INFO (ExtractingColumns columns) ;;;
      process_csv_file df columns
  end.

End UselessProcessCsv.

(** ** The id as the specification words it *)

(** "each coerced to its textual representation, with missing values
    rendered as empty string" *)
Definition spec_text (v : cell) : str :=
  if isna v then [] else py_str v.

Definition spec_id (content x y z layer : cell) : str :=
  MD5.hexdigest (encode_utf8
    (spec_text content ++ spec_text x ++ spec_text y ++ spec_text z
     ++ spec_text layer)).

(** ** Sample rules, rows and tables *)

Module Sample.

Import RefactorCsv.

Definition rule_A : pattern_config :=
  {| code := Some (py "^F1"); abbreviation := None |}.

Definition rule_B : pattern_config :=
  {| code := None; abbreviation := Some (py "GND") |}.

Definition rules_AB : list (str * pattern_config) :=
  [(py "A", rule_A); (py "B", rule_B)].


Definition rule_bad : pattern_config :=
  {| code := Some (py "("); abbreviation := None |}.

Definition rule_any : pattern_config :=
  {| code := Some (py ".*"); abbreviation := None |}.


Definition header : list str :=
  [py "content"; py "x"; py "y"; py "z"; py "layer"].

Definition vals_F1 : list cell :=
  [CStr (py "F1-101"); CNum (py "1"); CNum (py "2"); CNum (py "0");
   CStr (py "L1")].

Definition vals_GND : list cell :=
  [CStr (py "GND"); CNum (py "1"); CNum (py "2"); CNum (py "0");
   CStr (py "L1")].

(** The x cell is empty in the file. *)
Definition vals_F1_nan : list cell :=
  [CStr (py "F1-101"); CNaN; CNum (py "2"); CNum (py "0"); CStr (py "L1")].

(** The content cell holds two spaces. *)
Definition vals_blank : list cell :=
  [CStr (py "  "); CNum (py "1"); CNum (py "2"); CNum (py "0");
   CStr (py "L1")].

(** The content cell has a space on either side. *)
Definition vals_padded : list cell :=
  [CStr (py " F1-101 "); CNum (py "1"); CNum (py "2"); CNum (py "0");
   CStr (py "L1")].

Definition table (rows : list (list cell)) : DataFrame :=
  {| df_columns := header; df_rows := rows |}.

(** A row of [table] as the row loop sees it, the style column added. *)
Definition row_of (vals : list cell) : Series :=
  {| index := header ++ [py "style"]; values := vals ++ [CNone] |}.

Definition table_ac : DataFrame :=
  {| df_columns := [py "a"; py "c"];
     df_rows := [[CNum (py "1"); CNum (py "3")];
                 [CNum (py "4"); CNum (py "6")]] |}.

Definition B1_2024_csv : str :=
  py "B1" ++ UselessProcessCsv.energy_metering ++ py "_2024.csv".

Definition mapping_default : gmap str UselessProcessCsv.mapping_entry :=
  {[ py "default" :=
       {| UselessProcessCsv.entry_columns := [py "a"; py "b"; py "c"];
          UselessProcessCsv.entry_description := None |} ]}.

End Sample.

(** * Properties *)

(** ** The regex model: [ends] computes exactly the matches *)

Section PyReFacts.

Import PyRe.

Variable s : str.






End PyReFacts.

Local Close Scope N_scope.

(** ** Logging and exceptions *)

Lemma bind_ret {A B} (a : A) (f : A -> M B) : bind (ret a) f = f a.
Proof. unfold bind, ret. simpl. by destruct (f a). Qed.

Lemma bind_logger {B} lvl msg (k : M B) :
  (logger lvl msg ;;; k) = ((lvl, msg) :: k.1, k.2).
Proof. reflexivity. Qed.

Lemma bind_ok {A B} (m : M A) (f : A -> M B) a :
  m.2 = Some a -> bind m f = (m.1 ++ (f a).1, (f a).2).
Proof. unfold bind. by intros ->. Qed.

(** ** Rows and labels *)

Lemma index_of_Some key labels : key ∈ labels -> is_Some (index_of key labels).
Proof.
  induction labels as [|l labels IH]; [by rewrite elem_of_nil |].
  simpl. case_bool_decide; [by eexists |].
  rewrite elem_of_cons. intros [-> | Hin]; [done |].
  destruct (IH Hin) as [i ->]. by eexists.
Qed.

Lemma index_of_lookup key labels i :
  index_of key labels = Some i -> labels !! i = Some key.
Proof.
  revert i. induction labels as [|l labels IH]; intros i; [done |].
  simpl. case_bool_decide as Hl.
  - intros [= <-]. by rewrite Hl.
  - destruct (index_of key labels) as [i'|]; [|done].
    intros [= <-]. by apply IH.
Qed.

Lemma index_of_NoDup key labels i :
  NoDup labels -> labels !! i = Some key -> index_of key labels = Some i.
Proof.
  intros Hnd Hi. destruct (index_of_Some key labels) as [i' Hi'].
  { by eapply list_elem_of_lookup_2. }
  rewrite Hi'. f_equal.
  eapply NoDup_lookup; eauto using index_of_lookup.
Qed.

Lemma index_of_None key labels : key ∉ labels -> index_of key labels = None.
Proof.
  induction labels as [|l labels IH]; [done |].
  rewrite not_elem_of_cons. intros [Hne Hin]. simpl.
  rewrite bool_decide_eq_false_2 by congruence. by rewrite IH.
Qed.

Lemma index_of_app key a b :
  index_of key (a ++ b)
  = match index_of key a with
    | Some i => Some i
    | None => (fun j => length a + j) <$> index_of key b
    end.
Proof.
  induction a as [|l a IH]; simpl; [by destruct (index_of key b) |].
  case_bool_decide; [done |]. rewrite IH.
  destruct (index_of key a); [done |]. by destruct (index_of key b).
Qed.

(** A row of the table after [df[label] = v]: the new label reads [v], the
    other labels read what they read before. *)
Lemma series_get_add_column (cols : list str) (vals : list cell) label v key :
  length vals = length cols ->
  label ∉ cols ->
  series_get {| index := cols ++ [label]; values := vals ++ [v] |} key
  = if decide (key = label) then v
    else series_get {| index := cols; values := vals |} key.
Proof.
  intros Hlen Hlabel. unfold series_get, getitem, iloc. simpl.
  rewrite index_of_app.
  destruct (index_of key cols) as [i|] eqn:Hi; simpl.
  - pose proof (index_of_lookup _ _ _ Hi) as Hk.
    case_decide as Heq.
    + subst. exfalso. apply Hlabel. by eapply list_elem_of_lookup_2.
    + apply lookup_lt_Some in Hk. by rewrite lookup_app_l by lia.
  - case_bool_decide as Heq; simpl.
    + subst. rewrite decide_True by done.
      rewrite Nat.add_0_r, <- Hlen. by rewrite list_lookup_middle.
    + by rewrite decide_False by congruence.
Qed.

Lemma getitem_iterrows df row key :
  row ∈ iterrows df -> key ∈ df_columns df -> is_Some (getitem row key).
Proof.
  unfold iterrows. intros (vals & -> & _)%list_elem_of_fmap Hkey.
  unfold getitem. simpl. destruct (index_of_Some _ _ Hkey) as [i ->].
  by eexists.
Qed.

(** ** The classifier *)

Section ClassifierFacts.

Import RefactorCsv.

Variable re_match : str -> str -> re_result.

Abbreviation test_pattern := (test_pattern re_match).
Abbreviation match_patterns := (match_patterns re_match).
Abbreviation classify_row := (classify_row re_match).
Abbreviation classify_rows := (classify_rows re_match).
Abbreviation regex_errors := (regex_errors re_match).
Abbreviation emitted := (emitted re_match).
Abbreviation process_csv_file := (process_csv_file re_match).

Lemma item_lookups (i c x y z l st : cell) :
  let item : gmap str cell :=
    <[py "style" := st]> (<[py "layer" := l]> (<[py "z" := z]>
    (<[py "y" := y]> (<[py "x" := x]> (<[py "content" := c]> ∅))))) in
  (item !! py "content" = Some c /\ item !! py "x" = Some x
   /\ item !! py "y" = Some y /\ item !! py "z" = Some z
   /\ item !! py "layer" = Some l /\ item !! py "style" = Some st
   /\ item !! py "id" = None)
  /\ (<[py "id" := i]> item !! py "id" = Some i
      /\ <[py "id" := i]> item !! py "content" = Some c
      /\ <[py "id" := i]> item !! py "x" = Some x
      /\ <[py "id" := i]> item !! py "y" = Some y
      /\ <[py "id" := i]> item !! py "z" = Some z
      /\ <[py "id" := i]> item !! py "layer" = Some l
      /\ <[py "id" := i]> item !! py "style" = Some st).
Proof. vm_compute. repeat split. Qed.

(** The hash of the dict built for a row, with every lookup resolved. *)
Lemma generate_hash_base_item content_str row :
  generate_hash (base_item content_str row)
  = MD5.hexdigest (encode_utf8
      (content_str ++ py_str (series_get row (py "x"))
       ++ py_str (series_get row (py "y"))
       ++ py_str (series_get row (py "z"))
       ++ py_str (series_get row (py "layer")))).
Proof.
  unfold generate_hash, base_item.
  destruct (item_lookups CNone (CStr content_str)
              (series_get row (py "x")) (series_get row (py "y"))
              (series_get row (py "z")) (series_get row (py "layer"))
              (series_get row (py "style")))
    as [(-> & -> & -> & -> & -> & _) _].
  reflexivity.
Qed.



Lemma match_patterns_app pre post content_str row :
  Forall (fun p => is_hit (test_pattern p.2 content_str) = false) pre ->
  match_patterns (pre ++ post) content_str row
  = (regex_errors pre content_str ++ (match_patterns post content_str row).1,
     (match_patterns post content_str row).2).
Proof.
  induction 1 as [|[k pc] pre Hpc _ IH]; simpl.
  - by destruct (match_patterns post content_str row).
  - simpl in Hpc. unfold regex_errors in *. simpl.
    destruct (test_pattern pc content_str); try discriminate; simpl;
      rewrite ?bind_logger, IH; reflexivity.
Qed.

(** The rule loop never raises and appends at most one item. *)
Lemma match_patterns_result patterns content_str row :
  (match_patterns patterns content_str row).2 = Some []
  \/ (match_patterns patterns content_str row).2
     = Some [make_item content_str row].
Proof.
  induction patterns as [|[k pc] rest IH]; simpl; [by left |].
  destruct (test_pattern pc content_str); simpl; auto.
Qed.


(** A row with a content cell never makes the loop body raise, and adds
    nothing or the one item built from it. *)
Lemma classify_row_result patterns row content :
  getitem row (py "content") = Some content ->
  (classify_row patterns row).2 = Some []
  \/ (classify_row patterns row).2
     = Some [make_item (strip (py_str content)) row].
Proof.
  intros Hc. unfold RefactorCsv.classify_row. rewrite Hc.
  destruct (_ || _); [by left |]. apply match_patterns_result.
Qed.

Lemma classify_rows_ok patterns rows :
  Forall (fun row => is_Some (getitem row (py "content"))) rows ->
  classify_rows patterns rows
  = (rows ≫= (fun row => (classify_row patterns row).1),
     Some (rows ≫= emitted patterns)).
Proof.
  induction 1 as [|row rows [content Hc] _ IH]; [done |]. simpl.
  unfold RefactorCsv.emitted at 1.
  destruct (classify_row_result patterns row content Hc) as [Hr | Hr];
    rewrite Hr; erewrite bind_ok by exact Hr; rewrite IH;
    unfold bind; simpl; by rewrite app_nil_r.
Qed.



Lemma emitted_make_item patterns row content item :
  getitem row (py "content") = Some content ->
  item ∈ emitted patterns row ->
  item = make_item (strip (py_str content)) row.
Proof.
  intros Hc. unfold RefactorCsv.emitted.
  destruct (classify_row_result patterns row content Hc) as [-> | ->]; simpl.
  - by rewrite elem_of_nil.
  - by rewrite list_elem_of_singleton.
Qed.

Lemma make_item_lookups content_str row :
  make_item content_str row !! py "id"
  = Some (CStr (generate_hash (base_item content_str row)))
  /\ make_item content_str row !! py "content" = Some (CStr content_str)
  /\ make_item content_str row !! py "x" = Some (series_get row (py "x"))
  /\ make_item content_str row !! py "y" = Some (series_get row (py "y"))
  /\ make_item content_str row !! py "z" = Some (series_get row (py "z"))
  /\ make_item content_str row !! py "layer"
     = Some (series_get row (py "layer"))
  /\ make_item content_str row !! py "style"
     = Some (series_get row (py "style")).
Proof. unfold make_item, base_item. apply item_lookups. Qed.


Lemma content_in_ensure_style df :
  py "content" ∈ df_columns (ensure_style df) <-> py "content" ∈ df_columns df.
Proof.
  unfold ensure_style. case_bool_decide; [done |]. simpl.
  rewrite elem_of_app, list_elem_of_singleton. split; [|auto].
  intros [H' | H']; [done | discriminate H'].
Qed.

(** The rows of a table without a style column, as the row loop sees them:
    style reads [None], every other label reads the source row's value. *)
Lemma ensure_style_row df vals key :
  py "style" ∉ df_columns df ->
  vals ∈ df_rows df ->
  length vals = length (df_columns df) ->
  {| index := df_columns df ++ [py "style"]; values := vals ++ [CNone] |}
    ∈ iterrows (ensure_style df)
  /\ series_get
       {| index := df_columns df ++ [py "style"]; values := vals ++ [CNone] |}
       key
     = if decide (key = py "style") then CNone
       else series_get {| index := df_columns df; values := vals |} key.
Proof.
  intros Hstyle Hvals Hlen. split.
  - unfold ensure_style, iterrows, add_column.
    rewrite bool_decide_eq_false_2 by done. simpl.
    rewrite <- list_fmap_compose. apply list_elem_of_fmap.
    by exists vals.
  - by apply series_get_add_column.
Qed.

Lemma process_csv_file_no_content df patterns :
  py "content" ∉ df_columns df ->
  process_csv_file df patterns
  = ([(INFO, ReadingFile); (WARNING, MissingContentColumn)], Some None).
Proof.
  intros Hc. unfold RefactorCsv.process_csv_file.
  rewrite bool_decide_eq_false_2 by by rewrite content_in_ensure_style.
  reflexivity.
Qed.

Lemma process_csv_file_content df patterns :
  py "content" ∈ df_columns df ->
  process_csv_file df patterns
  = ((INFO, ReadingFile)
       :: (iterrows (ensure_style df)
             ≫= (fun row => (classify_row patterns row).1))
       ++ [(INFO,
            match iterrows (ensure_style df) ≫= emitted patterns with
            | [] => NoMatchFound
            | (_ :: _) as results => SavedRecords (length results)
            end)],
     Some match iterrows (ensure_style df) ≫= emitted patterns with
          | [] => None
          | (_ :: _) as results => Some (of_records results cols)
          end).
Proof.
  intros Hc. unfold RefactorCsv.process_csv_file.
  rewrite bool_decide_eq_true_2 by by rewrite content_in_ensure_style.
  rewrite classify_rows_ok.
  - unfold try_except, bind, logger, ret. simpl.
    destruct (iterrows (ensure_style df) ≫= emitted patterns) eqn:Hres;
      simpl; rewrite ?app_nil_r, ?length_fmap; reflexivity.
  - apply Forall_forall. intros row Hrow.
    eapply getitem_iterrows; [done |]. by rewrite content_in_ensure_style.
Qed.


(** C6 (amended): the record emitted for a row carries the row's content
    coerced to text and trimmed ([str(content).strip()], not the raw cell),
    and the row's x, y, z, layer and style values unchanged (Python's [None]
    for a column the table does not have); its line in the written table
    lists id, content, x, y, z, layer, style in that order. *)
Theorem C6_record_fields patterns row content item :
  getitem row (py "content") = Some content ->
  item ∈ emitted patterns row ->
  item !! py "content" = Some (CStr (strip (py_str content)))
  /\ item !! py "x" = Some (series_get row (py "x"))
  /\ item !! py "y" = Some (series_get row (py "y"))
  /\ item !! py "z" = Some (series_get row (py "z"))
  /\ item !! py "layer" = Some (series_get row (py "layer"))
  /\ item !! py "style" = Some (series_get row (py "style"))
  /\ df_rows (of_records [item] cols)
     = [[CStr (generate_hash (base_item (strip (py_str content)) row));
         CStr (strip (py_str content));
         series_get row (py "x"); series_get row (py "y");
         series_get row (py "z"); series_get row (py "layer");
         series_get row (py "style")]].
Proof.
  intros Hc Hitem. rewrite (emitted_make_item _ _ _ _ Hc Hitem).
  destruct (make_item_lookups (strip (py_str content)) row)
    as (Hid & Hcontent & Hx & Hy & Hz & Hl & Hs).
  repeat (split; [done |]).
  unfold of_records, cols. simpl.
  by rewrite Hid, Hcontent, Hx, Hy, Hz, Hl, Hs.
Qed.

(** C2 (amended): the id of a record emitted for a row whose table has the
    x, y, z and layer columns is the lowercase hexadecimal MD5 digest of
    the UTF-8 encoding of the record's content (the row's content as text,
    trimmed) followed by the x, y, z and layer values, each as [str]
    renders it; a missing value (NaN) is rendered as the text "nan", not as
    the empty string.  The id depends on nothing but these five values, so
    it is the same at any row position, in any table and under any rules. *)
Theorem C2_id_is_md5_of_fields patterns row content x y z layer item :
  getitem row (py "content") = Some content ->
  getitem row (py "x") = Some x ->
  getitem row (py "y") = Some y ->
  getitem row (py "z") = Some z ->
  getitem row (py "layer") = Some layer ->
  item ∈ emitted patterns row ->
  item !! py "id"
  = Some (CStr (MD5.hexdigest (encode_utf8
      (strip (py_str content) ++ py_str x ++ py_str y ++ py_str z
       ++ py_str layer)))).
Proof.
  intros Hc Hx Hy Hz Hl Hitem. rewrite (emitted_make_item _ _ _ _ Hc Hitem).
  destruct (make_item_lookups (strip (py_str content)) row) as [-> _].
  rewrite generate_hash_base_item. unfold series_get.
  by rewrite Hx, Hy, Hz, Hl.
Qed.

Lemma classify_row_null_or_empty patterns row content :
  getitem row (py "content") = Some content ->
  isna content = true \/ content = CStr [] ->
  classify_row patterns row = ret [].
Proof.
  intros Hc Hskip. unfold RefactorCsv.classify_row. rewrite Hc.
  destruct Hskip as [-> | ->]; [done |]. by rewrite orb_true_r.
Qed.

(** C5 (amended): the written table is not deduplicated.  It has one line
    for every classified row of the source, in row order: every row adds
    the records it emitted, at most one, whether or not an equal row came
    before.  Records that agree on content, x, y, z and layer carry the
    same id. *)
Theorem C5_one_record_per_classified_row df patterns out :
  (process_csv_file df patterns).2 = Some (Some out) ->
  out = of_records (iterrows (ensure_style df) ≫= emitted patterns) cols
  /\ Forall (fun row => length (emitted patterns row) <= 1)
            (iterrows (ensure_style df))
  /\ forall item1 item2,
       item1 ∈ iterrows (ensure_style df) ≫= emitted patterns ->
       item2 ∈ iterrows (ensure_style df) ≫= emitted patterns ->
       Forall (fun key => item1 !! key = item2 !! key)
              [py "content"; py "x"; py "y"; py "z"; py "layer"] ->
       item1 !! py "id" = item2 !! py "id".
Proof.
  intros Hout.
  destruct (decide (py "content" ∈ df_columns df)) as [Hc | Hc];
    [|by rewrite (process_csv_file_no_content _ _ Hc) in Hout].
  assert (forall row, row ∈ iterrows (ensure_style df) ->
            is_Some (getitem row (py "content"))) as Hrows.
  { intros row Hrow. eapply getitem_iterrows; [done |].
    by rewrite content_in_ensure_style. }
  rewrite (process_csv_file_content _ _ Hc) in Hout. simpl in Hout.
  split; [|split].
  - destruct (_ ≫= _); [done |]. congruence.
  - apply Forall_forall. intros row [content Hcontent]%Hrows.
    unfold RefactorCsv.emitted.
    destruct (classify_row_result patterns row content Hcontent)
      as [-> | ->]; simpl; lia.
  - intros item1 item2 (row1 & H1 & Hr1)%list_elem_of_bind
      (row2 & H2 & Hr2)%list_elem_of_bind Hsame.
    destruct (Hrows _ Hr1) as [c1 Hc1]. destruct (Hrows _ Hr2) as [c2 Hc2].
    rewrite (emitted_make_item _ _ _ _ Hc1 H1) in *.
    rewrite (emitted_make_item _ _ _ _ Hc2 H2) in *.
    destruct (make_item_lookups (strip (py_str c1)) row1)
      as (-> & Hk1 & Hx1 & Hy1 & Hz1 & Hl1 & _).
    destruct (make_item_lookups (strip (py_str c2)) row2)
      as (-> & Hk2 & Hx2 & Hy2 & Hz2 & Hl2 & _).
    rewrite !Forall_cons in Hsame.
    destruct Hsame as (Ek & Ex & Ey & Ez & El & _).
    rewrite Hk1, Hk2 in Ek. rewrite Hx1, Hx2 in Ex. rewrite Hy1, Hy2 in Ey.
    rewrite Hz1, Hz2 in Ez. rewrite Hl1, Hl2 in El.
    rewrite !generate_hash_base_item. congruence.
Qed.

End ClassifierFacts.

(** ** The classifier on CPython's [re.match] *)

Section PrefixMatch.

Import RefactorCsv.



End PrefixMatch.

(** ** The projector *)

Lemma startswith_spec s p :
  startswith s p = true <-> exists post, s = p ++ post.
Proof.
  revert s. induction p as [|a p IH]; intros s; simpl.
  - split; [eauto | by destruct s].
  - destruct s as [|b s]; [split; [done | by intros [? ?]] |].
    simpl. rewrite andb_true_iff, N.eqb_eq, IH. split.
    + intros [-> [post ->]]. eauto.
    + intros [post [= -> ->]]. eauto.
Qed.

Lemma str_in_spec k name : str_in k name = true <-> substring k name.
Proof.
  unfold substring. induction name as [|c name IH]; simpl.
  - rewrite orb_false_r, startswith_spec. split.
    + intros [post ->]. by exists [], post.
    + intros (pre & post & H). symmetry in H.
      apply app_eq_nil in H as [-> H]. eauto.
  - rewrite orb_true_iff, startswith_spec, IH. split.
    + intros [[post ->] | (pre & post & ->)]; [by exists [], post |].
      by exists (c :: pre), post.
    + intros ([|c' pre] & post & H); [left; eauto |].
      injection H as -> ->. right. eauto.
Qed.

Section ProjectorFacts.

Import UselessProcessCsv.

Lemma first_keyword_spec (kws : list str) (name : str) :
  (exists pre k post,
     kws = pre ++ k :: post /\ substring k name
     /\ Forall (fun k' => ~ substring k' name) pre
     /\ first_keyword kws name = k)
  \/ (Forall (fun k => ~ substring k name) kws
      /\ first_keyword kws name = py "default").
Proof.
  induction kws as [|k kws IH]; simpl; [right; auto |].
  destruct (str_in k name) eqn:Hk.
  - left. exists [], k, kws. rewrite <- str_in_spec. auto.
  - assert (~ substring k name) as Hnk by (rewrite <- str_in_spec; congruence).
    destruct IH as [(pre & k' & post & -> & Hk' & Hpre & Hres) | [Hall Hres]].
    + left. exists (k :: pre), k', post. auto.
    + right. auto.
Qed.

(** C9: the lookup key of a file name is the first keyword of the fixed list
    that occurs in the stem of the name, and "default" when none does; each
    keyword of the list is the key of the file named after it, so none is
    hidden by an earlier one.  A key the mapping does not have resolves to
    the columns of the mapping's own "default" entry (to no columns when
    that entry is absent too), and these are the columns [main] passes on. *)
Theorem C9_keyword_lookup (filename : str)
    (csv_mapping : gmap str mapping_entry) :
  ((exists pre k post,
      keywords = pre ++ k :: post /\ substring k (stem filename)
      /\ Forall (fun k' => ~ substring k' (stem filename)) pre
      /\ get_file_keyword filename = k)
   \/ (Forall (fun k => ~ substring k (stem filename)) keywords
       /\ get_file_keyword filename = py "default"))
  /\ Forall (fun k => get_file_keyword (k ++ py ".csv") = k) keywords
  /\ (csv_mapping !! get_file_keyword filename = None ->
      (resolve_columns csv_mapping (get_file_keyword filename)).2
      = Some (default [] (entry_columns <$> csv_mapping !! py "default"))
      /\ forall df c columns,
           default [] (entry_columns <$> csv_mapping !! py "default")
           = c :: columns ->
           (main_step csv_mapping filename df).2
           = (process_csv_file df (c :: columns)).2).
Proof.
  split; [apply first_keyword_spec |]. split.
  { vm_compute. repeat constructor. }
  intros Hnone. split.
  - unfold resolve_columns. by rewrite Hnone.
  - intros df c columns Hdef. unfold main_step, resolve_columns.
    rewrite Hnone, Hdef. unfold bind, logger, ret. simpl.
    by destruct (process_csv_file df (c :: columns)) as [? [?|]].
Qed.

Lemma process_csv_file_eq (df : DataFrame) (columns : list str) :
  process_csv_file df columns
  = match filter (fun col => col ∈ df_columns df) columns with
    | [] =>
        ((INFO, ReadingFile)
           :: match filter (fun col => col ∉ df_columns df) columns with
              | [] => []
              | (_ :: _) as missing => [(WARNING, MissingColumns missing)]
              end ++ [(ERROR, NoRequestedColumn)],
         Some None)
    | (_ :: _) as existing =>
        ((INFO, ReadingFile)
           :: match filter (fun col => col ∉ df_columns df) columns with
              | [] => []
              | (_ :: _) as missing => [(WARNING, MissingColumns missing)]
              end
           ++ [(INFO, SavedTable (length existing) (length (df_rows df)))],
         Some (Some (select df existing)))
    end.
Proof.
  unfold process_csv_file, try_except, bind, logger, ret. simpl.
  destruct (filter (fun col => col ∉ df_columns df) columns);
    destruct (filter (fun col => col ∈ df_columns df) columns);
    simpl; unfold iterrows; rewrite ?length_fmap; reflexivity.
Qed.

(** C10: the kept columns are the requested ones that the table has, in the
    order of the request.  When there are none the projector writes nothing
    and logs an error; otherwise it writes a table with exactly the kept
    columns in that order and one line per source row, in the same order,
    each cell being the source row's cell of that column. *)
Theorem C10_projection (df : DataFrame) (columns : list str) :
  filter (fun col => col ∈ df_columns df) columns `sublist_of` columns
  /\ (forall col,
        col ∈ filter (fun col => col ∈ df_columns df) columns
        <-> col ∈ columns /\ col ∈ df_columns df)
  /\ (filter (fun col => col ∈ df_columns df) columns = [] ->
      (process_csv_file df columns).2 = Some None
      /\ (ERROR, NoRequestedColumn) ∈ (process_csv_file df columns).1)
  /\ (filter (fun col => col ∈ df_columns df) columns <> [] ->
      exists out,
        (process_csv_file df columns).2 = Some (Some out)
        /\ df_columns out = filter (fun col => col ∈ df_columns df) columns
        /\ length (df_rows out) = length (df_rows df)
        /\ forall i vals,
             df_rows df !! i = Some vals ->
             exists line,
               df_rows out !! i = Some line
               /\ length line = length (df_columns out)
               /\ forall j col p v,
                    NoDup (df_columns df) ->
                    df_columns out !! j = Some col ->
                    df_columns df !! p = Some col ->
                    vals !! p = Some v ->
                    line !! j = Some v).
Proof.
  split; [apply sublist_filter |]. split.
  { intros col. rewrite list_elem_of_filter. tauto. }
  rewrite process_csv_file_eq. split.
  - intros ->. simpl. split; [done |].
    apply elem_of_cons. right. apply elem_of_app. right.
    by apply list_elem_of_singleton.
  - intros Hne.
    destruct (filter (fun col => col ∈ df_columns df) columns)
      as [|c existing] eqn:Hex; [done |].
    eexists. split; [reflexivity |].
    unfold select, iterrows. cbn [df_columns df_rows].
    split; [done |]. split; [by rewrite !length_fmap |].
    intros i vals Hi.
    exists (series_get {| index := df_columns df; values := vals |}
              <$> (c :: existing)).
    split; [by rewrite !list_lookup_fmap, Hi |].
    split; [by rewrite length_fmap |].
    intros j col p v Hnd Hj Hp Hv.
    rewrite list_lookup_fmap, Hj. cbn [fmap option_fmap option_map]. f_equal.
    unfold series_get, getitem, iloc. cbn [index values].
    rewrite (index_of_NoDup _ _ _ Hnd Hp). simpl. by rewrite Hv.
Qed.

End ProjectorFacts.

(** [Path(name).stem] strips the extension of a plain [.csv] file name. *)
Lemma split_sep_no_sep (s cur : str) :
  47%N ∉ s -> UselessProcessCsv.split_sep s cur = [reverse cur ++ s].
Proof.
  revert cur. induction s as [|c s IH]; intros cur Hs; simpl.
  - by rewrite app_nil_r.
  - apply not_elem_of_cons in Hs as [Hc Hs].
    destruct (N.eqb_spec c 47) as [-> | _]; [done |].
    rewrite (IH _ Hs), reverse_cons, <- app_assoc. done.
Qed.

Lemma rfind_app (a b : str) (c : N) (i : nat) :
  rfind b c = Some i -> rfind (a ++ b) c = Some (length a + i).
Proof. intros Hb. induction a as [|x a IH]; simpl; [done | by rewrite IH]. Qed.

Lemma stem_csv (base : str) :
  base <> [] -> 47%N ∉ base ->
  UselessProcessCsv.stem (base ++ py ".csv") = base.
Proof.
  intros Hne Hsep. unfold UselessProcessCsv.stem, UselessProcessCsv.path_name.
  rewrite split_sep_no_sep.
  2:{ rewrite elem_of_app. intros [H | H]; [done |].
      vm_compute in H. repeat (apply elem_of_cons in H as [[=] | H]).
      by apply elem_of_nil in H. }
  cbn [reverse rev_append app List.filter].
  assert (length (base ++ py ".csv") = length base + 4) as Hlen
    by (rewrite length_app; reflexivity).
  rewrite !bool_decide_eq_false_2.
  2:{ intros H. apply (f_equal length) in H. rewrite Hlen in H.
      simpl in H. lia. }
  2:{ intros H. apply (f_equal length) in H. rewrite Hlen in H.
      simpl in H. lia. }
  cbn [negb andb last default id].
  rewrite (rfind_app base (py ".csv") 46 0) by reflexivity.
  rewrite Hlen, Nat.add_0_r.
  assert (length base <> 0) by (by destruct base).
  replace ((0 <? length base) && (length base <? length base + 4 - 1))
    with true.
  - by rewrite take_app_length.
  - symmetry. apply andb_true_iff. split; apply Nat.ltb_lt; lia.
Qed.

(** ** The digest on known inputs *)

Example md5_empty :
  MD5.hexdigest [] = py "d41d8cd98f00b204e9800998ecf8427e".
Proof. vm_compute. reflexivity. Qed.

Example md5_abc :
  MD5.hexdigest (encode_utf8 (py "abc"))
  = py "900150983cd24fb0d6963f7d28e17f72".
Proof. vm_compute. reflexivity. Qed.

(** Four keywords' worth of three-byte characters: two blocks. *)
Example md5_two_blocks :
  MD5.hexdigest (encode_utf8
    (mjoin (replicate 10 UselessProcessCsv.energy_metering)))
  = py "bd06cf63b9c54fe81662ea0ecb58d2ef".
Proof. vm_compute. reflexivity. Qed.

(** ** The scenarios of the specification, evaluated *)

Section Scenarios.

Import Sample RefactorCsv.

(** Scenario 1: the F1 row is classified by rule A; the GND row is not
    classified, rule B having no regex. *)
Example scenario_1 :
  process_csv_file PyRe.re_match (table [vals_F1; vals_GND]) rules_AB
  = ([(INFO, ReadingFile); (INFO, SavedRecords 1)],
     Some (Some
       {| df_columns := cols;
          df_rows :=
            [[CStr (py "adda0b14e24a3dc2cd84c4f7028fb75d");
              CStr (py "F1-101"); CNum (py "1"); CNum (py "2");
              CNum (py "0"); CStr (py "L1"); CNone]] |})).
Proof. vm_compute. reflexivity. Qed.

(** Scenario 2: an empty content cell is read as a missing value. *)
Example scenario_2 :
  process_csv_file PyRe.re_match
    (table [[CNaN; CNum (py "1"); CNum (py "2"); CNum (py "0");
             CStr (py "L1")];
            [CStr []; CNum (py "1"); CNum (py "2"); CNum (py "0");
             CStr (py "L1")]])
    [(py "any", rule_any)]
  = ([(INFO, ReadingFile); (INFO, NoMatchFound)], Some None).
Proof. vm_compute. reflexivity. Qed.

(** Scenario 3: the malformed rule logs an error for either row and rule A
    is still evaluated. *)
Example scenario_3 :
  process_csv_file PyRe.re_match (table [vals_F1; vals_GND])
    [(py "bad", rule_bad); (py "A", rule_A)]
  = ([(INFO, ReadingFile); (ERROR, RegexError (py "("));
      (ERROR, RegexError (py "(")); (INFO, SavedRecords 1)],
     Some (Some
       {| df_columns := cols;
          df_rows :=
            [[CStr (py "adda0b14e24a3dc2cd84c4f7028fb75d");
              CStr (py "F1-101"); CNum (py "1"); CNum (py "2");
              CNum (py "0"); CStr (py "L1"); CNone]] |})).
Proof. vm_compute. reflexivity. Qed.

Example scenario_4 :
  UselessProcessCsv.get_file_keyword B1_2024_csv
  = py "B1" ++ UselessProcessCsv.energy_metering.
Proof. vm_compute. reflexivity. Qed.

Example scenario_5 :
  UselessProcessCsv.process_csv_file table_ac [py "a"; py "b"; py "c"]
  = ([(INFO, ReadingFile); (WARNING, MissingColumns [py "b"]);
      (INFO, SavedTable 2 2)],
     Some (Some table_ac)).
Proof. vm_compute. reflexivity. Qed.

Example scenario_6 :
  UselessProcessCsv.process_csv_file table_ac [py "x"; py "y"]
  = ([(INFO, ReadingFile); (WARNING, MissingColumns [py "x"; py "y"]);
      (ERROR, NoRequestedColumn)],
     Some None).
Proof. vm_compute. reflexivity. Qed.

(** The regex test against a full-string match on the same input. *)
Example prefix_not_fullmatch :
  PyRe.re_match (py "^F1") (py "F1-101") = ReMatch
  /\ PyRe.re_fullmatch (py "^F1") (py "F1-101") = ReNoMatch.
Proof. vm_compute. auto. Qed.

End Scenarios.

(** ** The claims at concrete inputs *)

Section Instances.

Import Sample RefactorCsv.



(** The claim C2 fails on a row whose x cell is missing: the id hashes the
    text "nan" in its place, not the empty string. *)
Lemma C2_counterexample :
  (fun item => item !! py "id")
    <$> emitted PyRe.re_match rules_AB (row_of vals_F1_nan)
  = [Some (CStr (py "fe4e0696acbd98fac2e7b1eddc51e70d"))]
  /\ spec_id (CStr (py "F1-101")) CNaN (CNum (py "2")) (CNum (py "0"))
             (CStr (py "L1"))
     = py "81926d3b1a99aa883a8a8457bf4543a5"
  /\ (fun item => item !! py "id")
       <$> emitted PyRe.re_match rules_AB (row_of vals_F1_nan)
     <> [Some (CStr (spec_id (CStr (py "F1-101")) CNaN (CNum (py "2"))
                             (CNum (py "0")) (CStr (py "L1"))))].
Proof. vm_compute. repeat split. intros [=]. Qed.

(** C2 (amended) on the F1 row of scenario 1. *)
Lemma C2_witness :
  getitem (row_of vals_F1) (py "content") = Some (CStr (py "F1-101"))
  /\ getitem (row_of vals_F1) (py "x") = Some (CNum (py "1"))
  /\ getitem (row_of vals_F1) (py "y") = Some (CNum (py "2"))
  /\ getitem (row_of vals_F1) (py "z") = Some (CNum (py "0"))
  /\ getitem (row_of vals_F1) (py "layer") = Some (CStr (py "L1"))
  /\ make_item (py "F1-101") (row_of vals_F1)
     ∈ emitted PyRe.re_match rules_AB (row_of vals_F1)
  /\ make_item (py "F1-101") (row_of vals_F1) !! py "id"
     = Some (CStr (MD5.hexdigest (encode_utf8
         (strip (py_str (CStr (py "F1-101"))) ++ py_str (CNum (py "1"))
          ++ py_str (CNum (py "2")) ++ py_str (CNum (py "0"))
          ++ py_str (CStr (py "L1")))))).
Proof.
  assert (make_item (py "F1-101") (row_of vals_F1)
          ∈ emitted PyRe.re_match rules_AB (row_of vals_F1)) as Hin
    by (vm_compute; constructor).
  repeat (split; [reflexivity |]). split; [exact Hin |].
  apply (C2_id_is_md5_of_fields PyRe.re_match rules_AB (row_of vals_F1)
           (CStr (py "F1-101")) (CNum (py "1")) (CNum (py "2"))
           (CNum (py "0")) (CStr (py "L1")));
    solve [reflexivity | exact Hin].
Defined.


(** C4 fails in the code on a content cell that holds only spaces: the cell
    is neither missing nor the empty string, so the row is not skipped; its
    trimmed content is empty, rule [.*] matches it, and a record with an
    empty content is written. *)
Theorem C4_blank_content_is_classified :
  strip (py_str (CStr (py "  "))) = []
  /\ process_csv_file PyRe.re_match (table [vals_blank])
       [(py "any", rule_any)]
     = ([(INFO, ReadingFile); (INFO, SavedRecords 1)],
        Some (Some
          {| df_columns := cols;
             df_rows :=
               [[CStr (py "d7bae326ed940520aa9bc2e319f7b3b6"); CStr [];
                 CNum (py "1"); CNum (py "2"); CNum (py "0");
                 CStr (py "L1"); CNone]] |})).
Proof. vm_compute. auto. Qed.

(** The claim C5 fails on a table with the same row twice: both lines are
    written, with the same id. *)
Lemma C5_counterexample :
  process_csv_file PyRe.re_match (table [vals_F1; vals_F1]) rules_AB
  = ([(INFO, ReadingFile); (INFO, SavedRecords 2)],
     Some (Some
       {| df_columns := cols;
          df_rows :=
            [[CStr (py "adda0b14e24a3dc2cd84c4f7028fb75d");
              CStr (py "F1-101"); CNum (py "1"); CNum (py "2");
              CNum (py "0"); CStr (py "L1"); CNone];
             [CStr (py "adda0b14e24a3dc2cd84c4f7028fb75d");
              CStr (py "F1-101"); CNum (py "1"); CNum (py "2");
              CNum (py "0"); CStr (py "L1"); CNone]] |})).
Proof. vm_compute. reflexivity. Qed.

(** C5 (amended) on the table with the same row twice. *)
Lemma C5_witness :
  (process_csv_file PyRe.re_match (table [vals_F1; vals_F1]) rules_AB).2
  = Some (Some (of_records
       (iterrows (ensure_style (table [vals_F1; vals_F1]))
          ≫= emitted PyRe.re_match rules_AB) cols))
  /\ Forall (fun row => length (emitted PyRe.re_match rules_AB row) <= 1)
            (iterrows (ensure_style (table [vals_F1; vals_F1]))).
Proof.
  assert ((process_csv_file PyRe.re_match (table [vals_F1; vals_F1])
             rules_AB).2
          = Some (Some (of_records
              (iterrows (ensure_style (table [vals_F1; vals_F1]))
                 ≫= emitted PyRe.re_match rules_AB) cols))) as H
    by (vm_compute; reflexivity).
  split; [exact H |].
  exact (proj1 (proj2 (C5_one_record_per_classified_row PyRe.re_match
                         _ _ _ H))).
Defined.

(** The claim C6 fails on a content cell with a space on either side: the
    record carries the trimmed text. *)
Lemma C6_counterexample :
  getitem (row_of vals_padded) (py "content") = Some (CStr (py " F1-101 "))
  /\ (fun item => item !! py "content")
       <$> emitted PyRe.re_match rules_AB (row_of vals_padded)
     = [Some (CStr (py "F1-101"))]
  /\ CStr (py "F1-101") <> CStr (py " F1-101 ").
Proof. vm_compute. repeat split. intros [=]. Qed.

(** C6 (amended) on the row whose content has a space on either side. *)
Lemma C6_witness :
  getitem (row_of vals_padded) (py "content") = Some (CStr (py " F1-101 "))
  /\ make_item (py "F1-101") (row_of vals_padded)
     ∈ emitted PyRe.re_match rules_AB (row_of vals_padded)
  /\ make_item (py "F1-101") (row_of vals_padded) !! py "content"
     = Some (CStr (strip (py_str (CStr (py " F1-101 "))))).
Proof.
  assert (make_item (py "F1-101") (row_of vals_padded)
          ∈ emitted PyRe.re_match rules_AB (row_of vals_padded)) as Hin
    by (vm_compute; constructor).
  split; [reflexivity |]. split; [exact Hin |].
  apply (C6_record_fields PyRe.re_match rules_AB (row_of vals_padded)
           (CStr (py " F1-101 ")) _ eq_refl Hin).
Defined.



(** C9 on the file of scenario 4 with a mapping that only has the default
    entry. *)
Lemma C9_witness :
  mapping_default !! UselessProcessCsv.get_file_keyword B1_2024_csv = None
  /\ (UselessProcessCsv.resolve_columns mapping_default
        (UselessProcessCsv.get_file_keyword B1_2024_csv)).2
     = Some (default []
               (UselessProcessCsv.entry_columns
                  <$> mapping_default !! py "default")).
Proof.
  assert (mapping_default !! UselessProcessCsv.get_file_keyword B1_2024_csv
          = None) as H by (vm_compute; reflexivity).
  split; [exact H |].
  exact (proj1 (proj2 (proj2 (C9_keyword_lookup B1_2024_csv mapping_default))
                  H)).
Defined.

(** C10 on scenario 5. *)
Lemma C10_witness :
  filter (fun col => col ∈ df_columns table_ac) [py "a"; py "b"; py "c"]
  <> []
  /\ exists out,
       (UselessProcessCsv.process_csv_file table_ac
          [py "a"; py "b"; py "c"]).2 = Some (Some out)
       /\ df_columns out
          = filter (fun col => col ∈ df_columns table_ac)
                   [py "a"; py "b"; py "c"]
       /\ length (df_rows out) = length (df_rows table_ac).
Proof.
  assert (filter (fun col => col ∈ df_columns table_ac)
                 [py "a"; py "b"; py "c"] <> []) as H
    by (vm_compute; discriminate).
  split; [exact H |].
  destruct (proj2 (proj2 (proj2 (C10_projection table_ac
                                   [py "a"; py "b"; py "c"]))) H)
    as (out & Hout & Hcols & Hlen & _).
  exists out. auto.
Defined.

End Instances.

(** * Further properties of the two scripts *)

(** ** The rule loop decides by the trimmed content alone *)

Section ClassifierMore.

Import RefactorCsv.

Variable re_match : str -> str -> re_result.

Abbreviation hit content_str :=
  (fun p : str * pattern_config =>
     is_hit (test_pattern re_match p.2 content_str) = true).

Lemma match_patterns_some_hit patterns content_str row :
  Exists (hit content_str) patterns ->
  (match_patterns re_match patterns content_str row).2
  = Some [make_item content_str row].
Proof.
  induction patterns as [|[k pc] rest IH]; intros H;
    [by apply Exists_nil in H |].
  apply Exists_cons in H. simpl in *.
  destruct (test_pattern re_match pc content_str); simpl; try done;
    destruct H as [H | H]; try done; by apply IH.
Qed.

Lemma match_patterns_none_hit patterns content_str row :
  ~ Exists (hit content_str) patterns ->
  match_patterns re_match patterns content_str row
  = (regex_errors re_match patterns content_str, Some []).
Proof.
  intros H.
  assert (Forall (fun p => is_hit (test_pattern re_match p.2 content_str)
                           = false) patterns) as Hall.
  { apply Forall_forall. intros p Hp.
    destruct (is_hit _) eqn:E; [|done]. exfalso. apply H.
    apply Exists_exists. eauto. }
  pose proof (match_patterns_app re_match patterns [] content_str row Hall)
    as Happ.
  rewrite !app_nil_r in Happ. exact Happ.
Qed.

(** What a row adds to the results: nothing, or the one item of its
    content when the content is present, not null, not empty, and some rule
    matches its trimmed text. *)
Lemma emitted_cases patterns row :
  emitted re_match patterns row = []
  \/ exists content,
       getitem row (py "content") = Some content
       /\ isna content = false
       /\ content <> CStr []
       /\ Exists (hit (strip (py_str content))) patterns
       /\ emitted re_match patterns row
          = [make_item (strip (py_str content)) row].
Proof.
  unfold emitted, classify_row.
  destruct (getitem row (py "content")) as [content|] eqn:Hc; [|by left].
  destruct (isna content) eqn:Hna; [by left |].
  case_bool_decide as Hne; [by left |]. simpl.
  destruct (decide (Exists (hit (strip (py_str content))) patterns))
    as [Hex | Hex].
  - right. exists content. rewrite (match_patterns_some_hit _ _ _ Hex).
    auto.
  - left. by rewrite (match_patterns_none_hit _ _ _ Hex).
Qed.




(** The written table as a function of the rows' items. *)
Lemma process_csv_file_written df patterns :
  (process_csv_file re_match df patterns).2
  = Some
      (if decide (py "content" ∈ df_columns df) then
         match iterrows (ensure_style df) ≫= emitted re_match patterns with
         | [] => None
         | (_ :: _) as results => Some (of_records results cols)
         end
       else None).
Proof.
  case_decide as Hc.
  - by rewrite (process_csv_file_content _ _ _ Hc).
  - by rewrite (process_csv_file_no_content _ _ _ Hc).
Qed.



Lemma emitted_length patterns row :
  length (emitted re_match patterns row) <= 1.
Proof.
  destruct (emitted_cases patterns row) as [-> | (c & _ & _ & _ & _ & ->)];
    simpl; lia.
Qed.

Lemma length_bind_le {A B} (f : A -> list B) (l : list A) :
  (forall x, length (f x) <= 1) -> length (l ≫= f) <= length l.
Proof.
  intros Hf. induction l as [|x l IH]; [done |].
  change ((x :: l) ≫= f) with (f x ++ (l ≫= f)).
  rewrite length_app. specialize (Hf x). simpl. lia.
Qed.

Lemma bind_nil_iff {A B} (f : A -> list B) (l : list A) :
  l ≫= f = [] <-> Forall (fun x => f x = []) l.
Proof.
  induction l as [|x l IH]; [by split |].
  change ((x :: l) ≫= f) with (f x ++ (l ≫= f)).
  rewrite Forall_cons, <- IH. split.
  - by intros [? ?]%app_eq_nil.
  - by intros [-> ->].
Qed.

Lemma length_rows_ensure_style df :
  length (iterrows (ensure_style df)) = length (df_rows df).
Proof.
  unfold iterrows, ensure_style, add_column.
  case_bool_decide; simpl; by rewrite !length_fmap.
Qed.

(** X3: a written table is never empty and always has the same shape.  Its
    columns are id, content, x, y, z, layer, style; every line has seven
    cells; it has at least one line and no more lines than the source has
    rows; the last log entry reports the number of lines. *)
Theorem written_table_shape df patterns out :
  (process_csv_file re_match df patterns).2 = Some (Some out) ->
  df_columns out = cols
  /\ df_rows out <> []
  /\ Forall (fun line => length line = 7) (df_rows out)
  /\ length (df_rows out) <= length (df_rows df)
  /\ last (process_csv_file re_match df patterns).1
     = Some (INFO, SavedRecords (length (df_rows out))).
Proof.
  intros Hout.
  destruct (decide (py "content" ∈ df_columns df)) as [Hc | Hc];
    [|by rewrite (process_csv_file_no_content _ _ _ Hc) in Hout].
  pose proof (length_bind_le (emitted re_match patterns)
                (iterrows (ensure_style df)) (emitted_length patterns))
    as Hlen.
  rewrite length_rows_ensure_style in Hlen.
  rewrite (process_csv_file_content _ _ _ Hc) in Hout |- *. simpl in Hout.
  destruct (iterrows (ensure_style df) ≫= emitted re_match patterns)
    as [|item results] eqn:Hres; [done |].
  injection Hout as <-. cbn [fst of_records df_columns df_rows].
  split; [done |]. split; [done |]. split.
  - apply Forall_fmap, Forall_forall. by intros r _.
  - rewrite length_fmap. split; [done |].
    by rewrite app_comm_cons, last_snoc.
Qed.


(** X5: rows whose content is null or the empty string are passed over in
    silence.  When every row of the table is such a row, nothing is
    written and nothing but the start and the absence of matches is
    logged, whatever the rules: no regex is applied, so even a malformed
    one logs no error. *)
Theorem null_content_rows_are_silent df patterns :
  py "content" ∈ df_columns df ->
  Forall (fun row => exists content,
            getitem row (py "content") = Some content
            /\ (isna content = true \/ content = CStr []))
         (iterrows (ensure_style df)) ->
  process_csv_file re_match df patterns
  = ([(INFO, ReadingFile); (INFO, NoMatchFound)], Some None).
Proof.
  intros Hc Hrows. rewrite (process_csv_file_content _ _ _ Hc).
  assert (Forall (fun row => classify_row re_match patterns row = ret [])
                 (iterrows (ensure_style df))) as Hret.
  { eapply Forall_impl; [exact Hrows |]. intros row (content & Hg & Hskip).
    by eapply classify_row_null_or_empty. }
  assert (iterrows (ensure_style df)
            ≫= (fun row => (classify_row re_match patterns row).1) = [])
    as ->.
  { apply bind_nil_iff. eapply Forall_impl; [exact Hret |].
    by intros row ->. }
  assert (iterrows (ensure_style df) ≫= emitted re_match patterns = [])
    as ->.
  { apply bind_nil_iff. eapply Forall_impl; [exact Hret |].
    unfold emitted. by intros row ->. }
  reflexivity.
Qed.

(** X6: a table without a content column is skipped with a warning: no rule
    is applied, nothing is written, and the run does not count as failed. *)
Theorem missing_content_column_skips_file df patterns :
  py "content" ∉ df_columns df ->
  process_csv_file re_match df patterns
  = ([(INFO, ReadingFile); (WARNING, MissingContentColumn)], Some None).
Proof. apply process_csv_file_no_content. Qed.

Lemma match_patterns_all_skipped patterns content_str row :
  Forall (fun p : str * pattern_config => truthy (code p.2) = false)
         patterns ->
  match_patterns re_match patterns content_str row = ret [].
Proof.
  induction 1 as [|[k pc] rest Hpc _ IH]; [done |]. simpl in *.
  unfold test_pattern. by rewrite Hpc.
Qed.

(** X7: a configuration in which no rule has a regex classifies nothing.
    Whatever the table, and whatever abbreviations the rules carry, no file
    is written and no error is logged. *)
Theorem rules_without_regex_classify_nothing df patterns :
  Forall (fun p : str * pattern_config => truthy (code p.2) = false)
         patterns ->
  (process_csv_file re_match df patterns).2 = Some None
  /\ Forall (fun entry : log_record => entry.1 <> ERROR)
            (process_csv_file re_match df patterns).1.
Proof.
  intros Hrules.
  destruct (decide (py "content" ∈ df_columns df)) as [Hc | Hc];
    [|rewrite (process_csv_file_no_content _ _ _ Hc); split;
      [done | by repeat constructor]].
  assert (Forall (fun row => classify_row re_match patterns row = ret [])
                 (iterrows (ensure_style df))) as Hret.
  { apply Forall_forall. intros row Hrow.
    destruct (getitem_iterrows (ensure_style df) row (py "content") Hrow)
      as [content Hg]; [by rewrite content_in_ensure_style |].
    unfold classify_row. rewrite Hg. destruct (_ || _); [done |].
    by apply match_patterns_all_skipped. }
  rewrite (process_csv_file_content _ _ _ Hc).
  assert (iterrows (ensure_style df)
            ≫= (fun row => (classify_row re_match patterns row).1) = [])
    as ->.
  { apply bind_nil_iff. eapply Forall_impl; [exact Hret |].
    by intros row ->. }
  assert (iterrows (ensure_style df) ≫= emitted re_match patterns = [])
    as ->.
  { apply bind_nil_iff. eapply Forall_impl; [exact Hret |].
    unfold emitted. by intros row ->. }
  split; [done | by repeat constructor].
Qed.

End ClassifierMore.

(** ** The shape of the id and of the content *)

Section DigestFormat.

Local Open Scope N_scope.

(** A lowercase hexadecimal digit: [0-9] or [a-f]. *)
Abbreviation is_hex c := (48 <= c /\ c <= 57 \/ 97 <= c /\ c <= 102).

Lemma le_bytes_spec n x :
  length (MD5.le_bytes n x) = n /\ Forall (fun b => b < 256) (MD5.le_bytes n x).
Proof.
  unfold MD5.le_bytes. split; [by rewrite length_fmap, length_seq |].
  apply Forall_fmap, Forall_forall. intros i _. simpl.
  by apply N.mod_lt.
Qed.

Lemma digest_spec msg :
  length (MD5.digest msg) = 16%nat
  /\ Forall (fun b => b < 256) (MD5.digest msg).
Proof.
  unfold MD5.digest.
  destruct (foldl MD5.block MD5.init _) as [A B C D].
  rewrite !length_app, !Forall_app.
  destruct (le_bytes_spec 4 A) as [-> ?], (le_bytes_spec 4 B) as [-> ?],
    (le_bytes_spec 4 C) as [-> ?], (le_bytes_spec 4 D) as [-> ?].
  auto.
Qed.

Lemma hex_digit_spec d : d < 16 -> is_hex (MD5.hex_digit d).
Proof. unfold MD5.hex_digit. destruct (N.ltb_spec d 10); lia. Qed.

Lemma hex_of_bytes_format (bs : list N) :
  Forall (fun b => b < 256) bs ->
  length (bs ≫= (fun b => [MD5.hex_digit (b / 16); MD5.hex_digit (b mod 16)]))
  = (2 * length bs)%nat
  /\ Forall (fun c => is_hex c)
       (bs ≫= (fun b => [MD5.hex_digit (b / 16); MD5.hex_digit (b mod 16)])).
Proof.
  induction 1 as [|b bs Hb _ [IHlen IHhex]]; [by split |].
  change ((b :: bs) ≫= ?f) with (f b ++ (bs ≫= f)).
  rewrite length_app, Forall_app, IHlen. split; [simpl; lia |].
  split; [|done]. apply Forall_cons. split.
  { apply hex_digit_spec. by apply N.Div0.div_lt_upper_bound. }
  apply Forall_cons. split; [|by apply Forall_nil].
  apply hex_digit_spec. by apply N.mod_lt.
Qed.

Lemma hexdigest_format msg :
  length (MD5.hexdigest msg) = 32%nat
  /\ Forall (fun c => is_hex c) (MD5.hexdigest msg).
Proof.
  unfold MD5.hexdigest. destruct (digest_spec msg) as [Hlen Hbytes].
  destruct (hex_of_bytes_format _ Hbytes) as [-> ?]. by rewrite Hlen.
Qed.

(** [lstrip] drops a prefix, [rstrip] a suffix; what is left neither starts
    nor ends with whitespace. *)
Lemma lstrip_suffix s : lstrip s `suffix_of` s.
Proof.
  induction s as [|c s IH]; simpl; [done |].
  destruct (isspace c); [by apply suffix_cons_r | done].
Qed.

Lemma lstrip_head s c : head (lstrip s) = Some c -> isspace c = false.
Proof.
  induction s as [|a s IH]; simpl; [done |].
  destruct (isspace a) eqn:Ha; [done |]. simpl. by intros [= <-].
Qed.

Lemma rstrip_prefix s : rstrip s `prefix_of` s.
Proof.
  unfold rstrip. rewrite <- (reverse_involutive s) at 2.
  apply suffix_prefix_reverse, lstrip_suffix.
Qed.

Lemma rstrip_last s c : last (rstrip s) = Some c -> isspace c = false.
Proof. unfold rstrip. rewrite last_reverse. apply lstrip_head. Qed.

Lemma strip_ends s c :
  (head (strip s) = Some c -> isspace c = false)
  /\ (last (strip s) = Some c -> isspace c = false).
Proof.
  unfold strip. split; [|apply rstrip_last].
  destruct (rstrip_prefix (lstrip s)) as [t Ht].
  destruct (rstrip (lstrip s)) as [|a r]; [done |]. simpl. intros [= ->].
  apply (lstrip_head s). by rewrite Ht.
Qed.

End DigestFormat.

Section RecordShape.

Import RefactorCsv.

Variable re_match : str -> str -> re_result.

Lemma emitted_is_make_item patterns row item :
  item ∈ emitted re_match patterns row ->
  exists content,
    getitem row (py "content") = Some content
    /\ item = make_item (strip (py_str content)) row.
Proof.
  destruct (emitted_cases re_match patterns row)
    as [-> | (content & Hc & _ & _ & _ & ->)].
  - by rewrite elem_of_nil.
  - rewrite list_elem_of_singleton. intros ->. eauto.
Qed.

(** X8: the id of every emitted record is a string of 32 lowercase
    hexadecimal digits. *)
Theorem emitted_id_is_32_hex_digits patterns row item :
  item ∈ emitted re_match patterns row ->
  exists h,
    item !! py "id" = Some (CStr h)
    /\ length h = 32
    /\ Forall (fun c => 48 <= c /\ c <= 57 \/ 97 <= c /\ c <= 102)%N h.
Proof.
  intros (content & _ & ->)%emitted_is_make_item.
  destruct (make_item_lookups (strip (py_str content)) row) as [Hid _].
  eexists. split; [exact Hid |]. apply hexdigest_format.
Qed.

(** X9: the id of an emitted record can be recomputed from the record
    itself: hashing the finished record, id and style included, gives its
    id again, as these two fields do not enter the hash. *)
Theorem emitted_id_is_hash_of_record patterns row item :
  item ∈ emitted re_match patterns row ->
  item !! py "id" = Some (CStr (generate_hash item)).
Proof.
  intros (content & _ & ->)%emitted_is_make_item.
  destruct (make_item_lookups (strip (py_str content)) row)
    as (Hid & Hc & Hx & Hy & Hz & Hl & _).
  rewrite Hid, generate_hash_base_item. unfold generate_hash.
  by rewrite Hc, Hx, Hy, Hz, Hl.
Qed.

(** X10: the content of an emitted record is trimmed: it neither starts nor
    ends with a whitespace character. *)
Theorem emitted_content_is_trimmed patterns row item :
  item ∈ emitted re_match patterns row ->
  exists content_str,
    item !! py "content" = Some (CStr content_str)
    /\ (forall c, head content_str = Some c -> isspace c = false)
    /\ (forall c, last content_str = Some c -> isspace c = false).
Proof.
  intros (content & _ & ->)%emitted_is_make_item.
  destruct (make_item_lookups (strip (py_str content)) row)
    as (_ & Hc & _).
  eexists. split; [exact Hc |]. split; intros c; apply strip_ends.
Qed.

(** The loop's row reads [None] at a label the source table lacks. *)
Lemma absent_label_reads_None df row key :
  Forall (fun vals => length vals = length (df_columns df)) (df_rows df) ->
  row ∈ iterrows (ensure_style df) ->
  key ∉ df_columns df ->
  series_get row key = CNone.
Proof.
  intros Hwf Hrow Hkey. unfold ensure_style in Hrow.
  case_bool_decide as Hstyle.
  - apply list_elem_of_fmap in Hrow as (vals & -> & _).
    unfold series_get, getitem. simpl. by rewrite index_of_None.
  - unfold iterrows, add_column in Hrow. simpl in Hrow.
    rewrite <- list_fmap_compose in Hrow.
    apply list_elem_of_fmap in Hrow as (vals & -> & Hvals). simpl.
    rewrite series_get_add_column; [|by eapply Forall_forall in Hwf|done].
    case_decide; [done |].
    unfold series_get, getitem. simpl. by rewrite index_of_None.
Qed.

(** X11: an optional column that the source table lacks is written as
    [None] in every line: the cell of x, y, z, layer or style at its fixed
    position in the line holds [None]. *)
Theorem absent_column_is_written_as_None df patterns out key pos :
  (process_csv_file re_match df patterns).2 = Some (Some out) ->
  Forall (fun vals => length vals = length (df_columns df)) (df_rows df) ->
  (key, pos) ∈ [(py "x", 2); (py "y", 3); (py "z", 4); (py "layer", 5);
                (py "style", 6)] ->
  key ∉ df_columns df ->
  Forall (fun line => line !! pos = Some CNone) (df_rows out).
Proof.
  intros Hout Hwf Hkey Habsent.
  rewrite process_csv_file_written in Hout. injection Hout as Hout.
  case_decide; [|done].
  destruct (iterrows (ensure_style df) ≫= emitted re_match patterns)
    as [|item0 results] eqn:Hres; [done |].
  injection Hout as <-. unfold of_records. cbn [df_rows].
  apply Forall_fmap, Forall_forall. intros item Hitem.
  rewrite <- Hres in Hitem.
  apply list_elem_of_bind in Hitem as (row & Hitem & Hrow).
  apply emitted_is_make_item in Hitem as (content & _ & ->).
  pose proof (absent_label_reads_None df row key Hwf Hrow Habsent) as Hnone.
  destruct (make_item_lookups (strip (py_str content)) row)
    as (_ & _ & Hx & Hy & Hz & Hl & Hs).
  repeat (apply elem_of_cons in Hkey as [[= -> ->] | Hkey];
          [simpl; rewrite ?Hx, ?Hy, ?Hz, ?Hl, ?Hs; simpl; by rewrite Hnone |]).
  by apply elem_of_nil in Hkey.
Qed.

(** X19: the id does not tell the fields apart.  The five texts are joined
    without a separator, so two records whose texts join to the same string
    carry the same id, even when their contents and coordinates differ. *)
Theorem id_ignores_field_boundaries patterns row1 row2 content1 content2
    item1 item2 :
  getitem row1 (py "content") = Some content1 ->
  getitem row2 (py "content") = Some content2 ->
  item1 ∈ emitted re_match patterns row1 ->
  item2 ∈ emitted re_match patterns row2 ->
  strip (py_str content1) ++ py_str (series_get row1 (py "x"))
    ++ py_str (series_get row1 (py "y")) ++ py_str (series_get row1 (py "z"))
    ++ py_str (series_get row1 (py "layer"))
  = strip (py_str content2) ++ py_str (series_get row2 (py "x"))
    ++ py_str (series_get row2 (py "y")) ++ py_str (series_get row2 (py "z"))
    ++ py_str (series_get row2 (py "layer")) ->
  item1 !! py "id" = item2 !! py "id".
Proof.
  intros Hc1 Hc2 (c1 & Hc1' & ->)%emitted_is_make_item
    (c2 & Hc2' & ->)%emitted_is_make_item Htext.
  assert (c1 = content1) as -> by congruence.
  assert (c2 = content2) as -> by congruence.
  destruct (make_item_lookups (strip (py_str content1)) row1) as [-> _].
  destruct (make_item_lookups (strip (py_str content2)) row2) as [-> _].
  by rewrite !generate_hash_base_item, Htext.
Qed.

End RecordShape.

(** ** Projections compose *)

Section ProjectorMore.

Import UselessProcessCsv.

Lemma filter_ext_in {A} (P Q : A -> Prop) `{!forall x, Decision (P x)}
    `{!forall x, Decision (Q x)} (l : list A) :
  (forall x, x ∈ l -> (P x <-> Q x)) -> filter P l = filter Q l.
Proof.
  induction l as [|x l IH]; intros Hext; [done |].
  rewrite !filter_cons, IH.
  - destruct (Hext x) as [H1 H2]; [by left |].
    destruct (decide (P x)), (decide (Q x)); tauto.
  - intros y Hy. apply Hext. by right.
Qed.

(** Reading a label off a projected row gives the source row's value. *)
Lemma series_get_fmap (labels : list str) (f : str -> cell) (c : str) :
  c ∈ labels ->
  series_get {| index := labels; values := f <$> labels |} c = f c.
Proof.
  intros Hc. destruct (index_of_Some c labels Hc) as [i Hi].
  unfold series_get, getitem, iloc. simpl. rewrite Hi. simpl.
  by rewrite list_lookup_fmap, (index_of_lookup _ _ _ Hi).
Qed.

Lemma select_select (df : DataFrame) (labels labels' : list str) :
  (forall c, c ∈ labels' -> c ∈ labels) ->
  select (select df labels) labels' = select df labels'.
Proof.
  intros Hsub. unfold select, iterrows. simpl. f_equal.
  rewrite <- !list_fmap_compose.
  apply Forall_fmap_ext, Forall_forall. intros vals _. simpl.
  apply Forall_fmap_ext, Forall_forall. intros c Hc.
  by apply series_get_fmap, Hsub.
Qed.

(** The table the projector writes, if any. *)
Lemma projector_written (df : DataFrame) (columns : list str) :
  (process_csv_file df columns).2
  = Some match filter (fun col => col ∈ df_columns df) columns with
         | [] => None
         | (_ :: _) as existing => Some (select df existing)
         end.
Proof.
  rewrite process_csv_file_eq.
  by destruct (filter (fun col => col ∈ df_columns df) columns).
Qed.

(** X12: projecting is idempotent.  Running the projector on the table it
    wrote, with the same column list, logs the same records and writes the
    same table again. *)
Theorem projection_is_idempotent (df out : DataFrame) (columns : list str) :
  (process_csv_file df columns).2 = Some (Some out) ->
  process_csv_file out columns = process_csv_file df columns
  /\ (process_csv_file out columns).2 = Some (Some out).
Proof.
  intros Hout. rewrite projector_written in Hout.
  destruct (filter (fun col => col ∈ df_columns df) columns)
    as [|c existing] eqn:Hex; [done |].
  injection Hout as <-.
  assert (forall x, x ∈ columns ->
            (x ∈ c :: existing <-> x ∈ df_columns df)) as Hiff.
  { intros x Hx. rewrite <- Hex, list_elem_of_filter. tauto. }
  assert (process_csv_file (select df (c :: existing)) columns
          = process_csv_file df columns) as Heq.
  { rewrite !process_csv_file_eq.
    cbn [select df_columns df_rows].
    rewrite (filter_ext_in (fun col => col ∈ c :: existing)
               (fun col => col ∈ df_columns df) columns Hiff).
    rewrite (filter_ext_in (fun col => col ∉ c :: existing)
               (fun col => col ∉ df_columns df) columns).
    2:{ intros x Hx. by rewrite (Hiff x Hx). }
    rewrite Hex. unfold iterrows. rewrite !length_fmap.
    change {| df_columns := c :: existing;
              df_rows := (fun row => series_get row <$> c :: existing)
                           <$> ((fun vals => {| index := df_columns df;
                                                values := vals |})
                                  <$> df_rows df) |}
      with (select df (c :: existing)).
    by rewrite select_select. }
  split; [exact Heq |].
  by rewrite Heq, projector_written, Hex.
Qed.

(** X13: projections compose.  Projecting the written table onto a second
    column list writes what projecting the source onto the columns of the
    second list that the first list also names would write. *)
Theorem projections_compose (df mid : DataFrame) (columns columns' : list str) :
  (process_csv_file df columns).2 = Some (Some mid) ->
  (process_csv_file mid columns').2
  = (process_csv_file df (filter (fun col => col ∈ columns) columns')).2.
Proof.
  intros Hmid. rewrite projector_written in Hmid.
  destruct (filter (fun col => col ∈ df_columns df) columns)
    as [|c existing] eqn:Hex; [done |].
  injection Hmid as <-. rewrite !projector_written.
  cbn [select df_columns]. rewrite list_filter_filter.
  rewrite (list_filter_iff (fun col => col ∈ c :: existing)
             (fun col => col ∈ df_columns df /\ col ∈ columns)).
  2:{ intros x. by rewrite <- Hex, list_elem_of_filter. }
  destruct (filter _ columns') as [|c' existing'] eqn:Hex'; [done |].
  do 2 f_equal. apply select_select.
  intros x Hx. rewrite <- Hex' in Hx.
  apply list_elem_of_filter in Hx as [[? ?] _].
  rewrite <- Hex. by apply list_elem_of_filter.
Qed.

(** X14: projecting a table onto exactly its own columns writes the table
    unchanged and logs no warning. *)
Theorem projection_onto_own_columns (df : DataFrame) :
  NoDup (df_columns df) ->
  Forall (fun vals => length vals = length (df_columns df)) (df_rows df) ->
  df_columns df <> [] ->
  process_csv_file df (df_columns df)
  = ([(INFO, ReadingFile);
      (INFO, SavedTable (length (df_columns df)) (length (df_rows df)))],
     Some (Some df)).
Proof.
  intros Hnd Hwf Hne. rewrite process_csv_file_eq.
  rewrite (filter_ext_in (fun col => col ∈ df_columns df)
             (fun _ => True) (df_columns df)) by tauto.
  rewrite (filter_ext_in (fun col => col ∉ df_columns df)
             (fun _ => False) (df_columns df)) by tauto.
  assert (forall l : list str, filter (fun _ => True) l = l) as Htrue.
  { induction l as [|x l IH]; [done |]. by rewrite filter_cons_True, IH. }
  assert (forall l : list str, filter (fun _ => False) l = []) as Hfalse.
  { induction l as [|x l IH]; [done |].
    rewrite filter_cons_False; [exact IH | tauto]. }
  rewrite Htrue, Hfalse.
  assert (select df (df_columns df) = df) as Hsel.
  { destruct df as [labels rows]. unfold select, iterrows. simpl in *.
    f_equal. rewrite <- list_fmap_compose.
    rewrite <- (list_fmap_id rows) at 2.
    apply Forall_fmap_ext. eapply Forall_impl; [exact Hwf |].
    intros vals Hlen. simpl. apply list_eq. intros i.
    rewrite list_lookup_fmap.
    destruct (labels !! i) as [c|] eqn:Hc; simpl.
    - unfold series_get, getitem, iloc. simpl.
      rewrite (index_of_NoDup _ _ _ Hnd Hc). simpl.
      destruct (vals !! i) as [v|] eqn:Hv; [done |].
      apply lookup_ge_None in Hv. apply lookup_lt_Some in Hc.
      rewrite Hlen in Hv. simpl in *. lia.
    - symmetry. apply lookup_ge_None. apply lookup_ge_None in Hc.
      rewrite Hlen. simpl in *. lia. }
  destruct (df_columns df) as [|c labels] eqn:Hcols; [done |].
  cbv zeta. rewrite Hsel. reflexivity.
Qed.

(** X15: the warning about missing columns is logged exactly when a
    requested column is absent from the table, and it lists the absent
    ones in the order of the request. *)
Theorem missing_columns_are_reported (df : DataFrame) (columns m : list str) :
  (WARNING, MissingColumns m) ∈ (process_csv_file df columns).1
  <-> m <> [] /\ m = filter (fun col => col ∉ df_columns df) columns.
Proof.
  rewrite process_csv_file_eq.
  destruct (filter (fun col => col ∈ df_columns df) columns);
    destruct (filter (fun col => col ∉ df_columns df) columns) as [|x xs];
    cbv zeta; cbn [fst app]; split.
  all: try (intros Hin;
            repeat (apply elem_of_cons in Hin as [Hin | Hin];
                    [try discriminate Hin |]);
            try (by apply elem_of_nil in Hin);
            by injection Hin as ->).
  all: intros [Hne ->]; try done.
  all: apply elem_of_cons; right; apply elem_of_cons; by left.
Qed.

(** X16: a keyword that the mapping configures uses its own column list;
    the "default" entry plays no part.  The step logs the keyword, the
    entry's description and the columns, then projects the table onto
    them. *)
Theorem configured_keyword_uses_its_columns
    (csv_mapping : gmap str mapping_entry) (name : str) (df : DataFrame)
    (entry : mapping_entry) (c : str) (columns : list str) :
  csv_mapping !! get_file_keyword name = Some entry ->
  entry_columns entry = c :: columns ->
  main_step csv_mapping name df
  = ([(INFO, ProcessingFile (get_file_keyword name));
      (INFO, Description (default [] (entry_description entry)));
      (INFO, ExtractingColumns (c :: columns))]
       ++ (process_csv_file df (c :: columns)).1,
     (process_csv_file df (c :: columns)).2).
Proof.
  intros Hentry Hcols. unfold main_step, resolve_columns.
  rewrite Hentry, Hcols. unfold bind, logger, ret. simpl.
  by destruct (process_csv_file df (c :: columns)) as [? [?|]].
Qed.

(** X17: when the column list resolved for a file is empty, the file is
    skipped before it is read: a warning is the last thing logged, nothing
    is written, and the projector is not run.  This is so for a configured
    keyword whose own list is empty, whatever the "default" entry holds. *)
Theorem empty_column_list_skips_file
    (csv_mapping : gmap str mapping_entry) (name : str) (df : DataFrame) :
  (resolve_columns csv_mapping (get_file_keyword name)).2 = Some [] ->
  (main_step csv_mapping name df).2 = Some None
  /\ ((INFO, ReadingFile) ∉ (main_step csv_mapping name df).1)
  /\ last (main_step csv_mapping name df).1
     = Some (WARNING, NoColumnsConfigured).
Proof.
  unfold main_step, resolve_columns.
  destruct (csv_mapping !! get_file_keyword name) as [entry|];
    unfold bind, logger, ret; simpl; intros [= ->]; simpl;
    (split; [done |]); (split; [|done]);
    rewrite !not_elem_of_cons; repeat split; try done;
    apply not_elem_of_nil.
Qed.

Lemma split_sep_app_sep (a b cur : str) :
  split_sep (a ++ 47%N :: b) cur = split_sep a cur ++ split_sep b [].
Proof.
  revert cur. induction a as [|c a IH]; intros cur; simpl; [done |].
  destruct (N.eqb_spec c 47); by rewrite IH.
Qed.

Lemma rfind_None (s : str) (c : N) : c ∉ s -> rfind s c = None.
Proof.
  induction s as [|a s IH]; [done |].
  rewrite not_elem_of_cons. intros [Hne Hs]. simpl. rewrite (IH Hs).
  destruct (N.eqb_spec a c); [congruence | done].
Qed.

(** The name and the stem of [dir/base.ext]. *)
Lemma path_name_file (prefix name : str) :
  prefix = [] \/ (exists dir, prefix = dir ++ [47%N]) ->
  name <> [] -> name <> py "." -> 47%N ∉ name ->
  path_name (prefix ++ name) = name.
Proof.
  intros Hprefix Hne Hdot Hsep. unfold path_name.
  assert (List.filter
            (fun x : str => negb (bool_decide (x = []))
                            && negb (bool_decide (x = py ".")))
            [name] = [name]) as Hkeep.
  { simpl. by rewrite !bool_decide_eq_false_2. }
  destruct Hprefix as [-> | [dir ->]].
  - rewrite app_nil_l, split_sep_no_sep by done.
    change (reverse [] ++ name) with name. by rewrite Hkeep.
  - rewrite <- app_assoc. cbn [app].
    rewrite split_sep_app_sep, List.filter_app, (split_sep_no_sep name [])
      by done.
    change (reverse [] ++ name) with name. rewrite Hkeep.
    by rewrite last_snoc.
Qed.

Lemma stem_file (prefix base ext : str) :
  prefix = [] \/ (exists dir, prefix = dir ++ [47%N]) ->
  base <> [] -> 47%N ∉ base ->
  ext <> [] -> 46%N ∉ ext -> 47%N ∉ ext ->
  stem (prefix ++ base ++ 46%N :: ext) = base.
Proof.
  intros Hprefix Hbase Hbsep Hext Hedot Hesep. unfold stem.
  assert (length (base ++ 46%N :: ext) = length base + S (length ext))
    as Hlen by (by rewrite length_app).
  assert (length base <> 0) by (by destruct base).
  assert (length ext <> 0) by (by destruct ext).
  rewrite path_name_file; try done.
  - rewrite (rfind_app base (46%N :: ext) 46 0).
    2:{ simpl. by rewrite (rfind_None ext 46 Hedot). }
    rewrite Hlen, Nat.add_0_r.
    replace ((0 <? length base)
             && (length base <? length base + S (length ext) - 1))
      with true.
    + by rewrite take_app_length.
    + symmetry. apply andb_true_iff. split; apply Nat.ltb_lt; lia.
  - intros Heq. apply (f_equal length) in Heq. rewrite Hlen in Heq.
    simpl in Heq. lia.
  - intros Heq. apply (f_equal length) in Heq. rewrite Hlen in Heq.
    simpl in Heq. lia.
  - rewrite elem_of_app, elem_of_cons. intros [? | [? | ?]]; done.
Qed.

(** X18: the keyword of a file depends on the base name alone.  A directory
    in front of the name and the extension after its last dot, whatever
    they contain, do not influence the keyword: [dir/base.ext] and
    [base.ext] both get the keyword of [base.csv]. *)
Theorem keyword_ignores_directory_and_extension (dir base ext : str) :
  base <> [] -> 47%N ∉ base ->
  ext <> [] -> 46%N ∉ ext -> 47%N ∉ ext ->
  get_file_keyword (dir ++ py "/" ++ base ++ py "." ++ ext)
  = get_file_keyword (base ++ py ".csv")
  /\ get_file_keyword (base ++ py "." ++ ext)
     = get_file_keyword (base ++ py ".csv").
Proof.
  intros Hbase Hbsep Hext Hedot Hesep. unfold get_file_keyword.
  rewrite (stem_csv base Hbase Hbsep).
  replace (dir ++ py "/" ++ base ++ py "." ++ ext)
    with ((dir ++ [47%N]) ++ base ++ 46%N :: ext)
    by (by rewrite <- app_assoc).
  rewrite (stem_file (dir ++ [47%N]) base ext) by eauto.
  change (base ++ py "." ++ ext) with ([] ++ base ++ 46%N :: ext).
  by rewrite (stem_file [] base ext) by auto.
Qed.

End ProjectorMore.

(** ** The further properties at concrete inputs *)

Section MoreInstances.

Import Sample RefactorCsv.



Lemma written_table_shape_witness :
  (process_csv_file PyRe.re_match (table [vals_F1; vals_GND]) rules_AB).2
  = Some (Some (of_records [make_item (py "F1-101") (row_of vals_F1)] cols))
  /\ length (df_rows
               (of_records [make_item (py "F1-101") (row_of vals_F1)] cols))
     <= length (df_rows (table [vals_F1; vals_GND])).
Proof.
  assert ((process_csv_file PyRe.re_match (table [vals_F1; vals_GND])
             rules_AB).2
          = Some (Some (of_records
                          [make_item (py "F1-101") (row_of vals_F1)] cols)))
    as H by (vm_compute; reflexivity).
  split; [exact H |].
  exact (proj1 (proj2 (proj2 (proj2
           (written_table_shape PyRe.re_match _ _ _ H))))).
Defined.

Lemma null_content_rows_are_silent_witness :
  py "content" ∈ df_columns (table [CNaN :: tail vals_F1;
                                    CStr [] :: tail vals_F1])
  /\ process_csv_file PyRe.re_match
       (table [CNaN :: tail vals_F1; CStr [] :: tail vals_F1])
       [(py "bad", rule_bad); (py "any", rule_any)]
     = ([(INFO, ReadingFile); (INFO, NoMatchFound)], Some None).
Proof.
  assert (py "content" ∈ df_columns (table [CNaN :: tail vals_F1;
                                            CStr [] :: tail vals_F1]))
    as Hc by (apply elem_of_cons; by left).
  split; [exact Hc |].
  apply (null_content_rows_are_silent PyRe.re_match _ _ Hc).
  apply Forall_cons. split.
  { exists CNaN. split; [reflexivity | by left]. }
  apply Forall_cons. split; [|by apply Forall_nil].
  exists (CStr []). split; [reflexivity | by right].
Defined.

Lemma missing_content_column_skips_file_witness :
  (py "content" ∉ [py "x"; py "y"])
  /\ process_csv_file PyRe.re_match
       {| df_columns := [py "x"; py "y"];
          df_rows := [[CNum (py "1"); CNum (py "2")]] |} rules_AB
     = ([(INFO, ReadingFile); (WARNING, MissingContentColumn)], Some None).
Proof.
  assert (py "content" ∉ [py "x"; py "y"]) as H.
  { apply (bool_decide_unpack _). vm_compute. exact I. }
  split; [exact H |].
  exact (missing_content_column_skips_file PyRe.re_match
           {| df_columns := [py "x"; py "y"];
              df_rows := [[CNum (py "1"); CNum (py "2")]] |} rules_AB H).
Defined.

Lemma rules_without_regex_classify_nothing_witness :
  Forall (fun p : str * pattern_config => truthy (code p.2) = false)
         [(py "B", rule_B)]
  /\ (process_csv_file PyRe.re_match (table [vals_F1; vals_GND])
        [(py "B", rule_B)]).2 = Some None.
Proof.
  assert (Forall (fun p : str * pattern_config => truthy (code p.2) = false)
                 [(py "B", rule_B)]) as H
    by (apply Forall_cons; split; [reflexivity | by apply Forall_nil]).
  split; [exact H |].
  exact (proj1 (rules_without_regex_classify_nothing PyRe.re_match
                  (table [vals_F1; vals_GND]) _ H)).
Defined.

Lemma emitted_id_is_32_hex_digits_witness :
  make_item (py "F1-101") (row_of vals_F1)
    ∈ emitted PyRe.re_match rules_AB (row_of vals_F1)
  /\ exists h,
       make_item (py "F1-101") (row_of vals_F1) !! py "id" = Some (CStr h)
       /\ length h = 32.
Proof.
  assert (make_item (py "F1-101") (row_of vals_F1)
          ∈ emitted PyRe.re_match rules_AB (row_of vals_F1)) as Hin
    by (vm_compute; constructor).
  split; [exact Hin |].
  destruct (emitted_id_is_32_hex_digits PyRe.re_match _ _ _ Hin)
    as (h & Hid & Hlen & _).
  exists h. auto.
Defined.

Lemma emitted_id_is_hash_of_record_witness :
  make_item (py "F1-101") (row_of vals_F1)
    ∈ emitted PyRe.re_match rules_AB (row_of vals_F1)
  /\ make_item (py "F1-101") (row_of vals_F1) !! py "id"
     = Some (CStr (generate_hash (make_item (py "F1-101") (row_of vals_F1)))).
Proof.
  assert (make_item (py "F1-101") (row_of vals_F1)
          ∈ emitted PyRe.re_match rules_AB (row_of vals_F1)) as Hin
    by (vm_compute; constructor).
  split; [exact Hin |].
  exact (emitted_id_is_hash_of_record PyRe.re_match _ _ _ Hin).
Defined.

Lemma emitted_content_is_trimmed_witness :
  make_item (py "F1-101") (row_of vals_padded)
    ∈ emitted PyRe.re_match rules_AB (row_of vals_padded)
  /\ exists content_str,
       make_item (py "F1-101") (row_of vals_padded) !! py "content"
       = Some (CStr content_str)
       /\ (forall c, head content_str = Some c -> isspace c = false)
       /\ (forall c, last content_str = Some c -> isspace c = false).
Proof.
  assert (make_item (py "F1-101") (row_of vals_padded)
          ∈ emitted PyRe.re_match rules_AB (row_of vals_padded)) as Hin
    by (vm_compute; constructor).
  split; [exact Hin |].
  exact (emitted_content_is_trimmed PyRe.re_match _ _ _ Hin).
Defined.

Lemma absent_column_is_written_as_None_witness :
  (process_csv_file PyRe.re_match
     {| df_columns := [py "content"; py "x"];
        df_rows := [[CStr (py "F1-101"); CNum (py "1")]] |} rules_AB).2
  = Some (Some (of_records
       [make_item (py "F1-101")
          {| index := [py "content"; py "x"; py "style"];
             values := [CStr (py "F1-101"); CNum (py "1"); CNone] |}] cols))
  /\ (py "layer" ∉ [py "content"; py "x"])
  /\ Forall (fun line => line !! 5 = Some CNone)
       (df_rows (of_records
          [make_item (py "F1-101")
             {| index := [py "content"; py "x"; py "style"];
                values := [CStr (py "F1-101"); CNum (py "1"); CNone] |}]
          cols)).
Proof.
  assert ((process_csv_file PyRe.re_match
             {| df_columns := [py "content"; py "x"];
                df_rows := [[CStr (py "F1-101"); CNum (py "1")]] |}
             rules_AB).2
          = Some (Some (of_records
               [make_item (py "F1-101")
                  {| index := [py "content"; py "x"; py "style"];
                     values := [CStr (py "F1-101"); CNum (py "1"); CNone] |}]
               cols))) as Hout by (vm_compute; reflexivity).
  assert (py "layer" ∉ [py "content"; py "x"]) as Habs.
  { apply (bool_decide_unpack _). vm_compute. exact I. }
  split; [exact Hout |]. split; [exact Habs |].
  apply (absent_column_is_written_as_None PyRe.re_match _ _ _ (py "layer") 5
           Hout).
  - apply Forall_cons. split; [reflexivity | by apply Forall_nil].
  - do 3 (apply elem_of_cons; right). apply elem_of_cons. by left.
  - exact Habs.
Defined.

Lemma id_ignores_field_boundaries_witness :
  make_item (py "F1")
    {| index := [py "content"; py "x"];
       values := [CStr (py "F1"); CNum (py "12")] |}
    ∈ emitted PyRe.re_match rules_AB
        {| index := [py "content"; py "x"];
           values := [CStr (py "F1"); CNum (py "12")] |}
  /\ make_item (py "F11")
       {| index := [py "content"; py "x"];
          values := [CStr (py "F11"); CNum (py "2")] |}
     ∈ emitted PyRe.re_match rules_AB
         {| index := [py "content"; py "x"];
            values := [CStr (py "F11"); CNum (py "2")] |}
  /\ make_item (py "F1")
       {| index := [py "content"; py "x"];
          values := [CStr (py "F1"); CNum (py "12")] |} !! py "id"
     = make_item (py "F11")
         {| index := [py "content"; py "x"];
            values := [CStr (py "F11"); CNum (py "2")] |} !! py "id".
Proof.
  assert (make_item (py "F1")
            {| index := [py "content"; py "x"];
               values := [CStr (py "F1"); CNum (py "12")] |}
          ∈ emitted PyRe.re_match rules_AB
              {| index := [py "content"; py "x"];
                 values := [CStr (py "F1"); CNum (py "12")] |}) as H1
    by (vm_compute; constructor).
  assert (make_item (py "F11")
            {| index := [py "content"; py "x"];
               values := [CStr (py "F11"); CNum (py "2")] |}
          ∈ emitted PyRe.re_match rules_AB
              {| index := [py "content"; py "x"];
                 values := [CStr (py "F11"); CNum (py "2")] |}) as H2
    by (vm_compute; constructor).
  split; [exact H1 |]. split; [exact H2 |].
  eapply (id_ignores_field_boundaries PyRe.re_match rules_AB);
    [ | | exact H1 | exact H2 | ]; reflexivity.
Defined.

Lemma projection_is_idempotent_witness :
  (UselessProcessCsv.process_csv_file table_ac [py "c"; py "b"]).2
  = Some (Some (select table_ac [py "c"]))
  /\ UselessProcessCsv.process_csv_file (select table_ac [py "c"])
       [py "c"; py "b"]
     = UselessProcessCsv.process_csv_file table_ac [py "c"; py "b"].
Proof.
  assert ((UselessProcessCsv.process_csv_file table_ac [py "c"; py "b"]).2
          = Some (Some (select table_ac [py "c"]))) as H
    by (vm_compute; reflexivity).
  split; [exact H |].
  exact (proj1 (projection_is_idempotent _ _ _ H)).
Defined.

Lemma projections_compose_witness :
  (UselessProcessCsv.process_csv_file table_ac [py "c"; py "b"; py "a"]).2
  = Some (Some (select table_ac [py "c"; py "a"]))
  /\ (UselessProcessCsv.process_csv_file
        (select table_ac [py "c"; py "a"]) [py "a"; py "x"]).2
     = (UselessProcessCsv.process_csv_file table_ac
          (filter (fun col => col ∈ [py "c"; py "b"; py "a"])
                  [py "a"; py "x"])).2.
Proof.
  assert ((UselessProcessCsv.process_csv_file table_ac
             [py "c"; py "b"; py "a"]).2
          = Some (Some (select table_ac [py "c"; py "a"]))) as H
    by (vm_compute; reflexivity).
  split; [exact H |].
  exact (projections_compose _ _ _ [py "a"; py "x"] H).
Defined.

Lemma projection_onto_own_columns_witness :
  NoDup (df_columns table_ac)
  /\ Forall (fun vals => length vals = length (df_columns table_ac))
            (df_rows table_ac)
  /\ UselessProcessCsv.process_csv_file table_ac (df_columns table_ac)
     = ([(INFO, ReadingFile);
         (INFO, SavedTable (length (df_columns table_ac))
                           (length (df_rows table_ac)))],
        Some (Some table_ac)).
Proof.
  assert (NoDup (df_columns table_ac)) as Hnd.
  { apply (bool_decide_unpack _). vm_compute. exact I. }
  assert (Forall (fun vals => length vals = length (df_columns table_ac))
                 (df_rows table_ac)) as Hwf.
  { apply Forall_cons. split; [reflexivity |].
    apply Forall_cons. split; [reflexivity | by apply Forall_nil]. }
  split; [exact Hnd |]. split; [exact Hwf |].
  apply (projection_onto_own_columns table_ac Hnd Hwf). discriminate.
Defined.

Lemma configured_keyword_uses_its_columns_witness :
  <[py "B1" ++ UselessProcessCsv.energy_metering :=
      {| UselessProcessCsv.entry_columns := [py "c"];
         UselessProcessCsv.entry_description := Some (py "basement") |}]>
    mapping_default !! UselessProcessCsv.get_file_keyword B1_2024_csv
  = Some {| UselessProcessCsv.entry_columns := [py "c"];
            UselessProcessCsv.entry_description := Some (py "basement") |}
  /\ (UselessProcessCsv.main_step
        (<[py "B1" ++ UselessProcessCsv.energy_metering :=
             {| UselessProcessCsv.entry_columns := [py "c"];
                UselessProcessCsv.entry_description :=
                  Some (py "basement") |}]> mapping_default)
        B1_2024_csv table_ac).2
     = (UselessProcessCsv.process_csv_file table_ac [py "c"]).2.
Proof.
  assert (<[py "B1" ++ UselessProcessCsv.energy_metering :=
              {| UselessProcessCsv.entry_columns := [py "c"];
                 UselessProcessCsv.entry_description :=
                   Some (py "basement") |}]>
            mapping_default !! UselessProcessCsv.get_file_keyword B1_2024_csv
          = Some {| UselessProcessCsv.entry_columns := [py "c"];
                    UselessProcessCsv.entry_description :=
                      Some (py "basement") |}) as H
    by (vm_compute; reflexivity).
  split; [exact H |].
  exact (f_equal snd
           (configured_keyword_uses_its_columns _ B1_2024_csv table_ac _
              (py "c") [] H eq_refl)).
Defined.

Lemma empty_column_list_skips_file_witness :
  (UselessProcessCsv.resolve_columns
     (<[py "B1" ++ UselessProcessCsv.energy_metering :=
          {| UselessProcessCsv.entry_columns := [];
             UselessProcessCsv.entry_description := None |}]>
        mapping_default)
     (UselessProcessCsv.get_file_keyword B1_2024_csv)).2 = Some []
  /\ (UselessProcessCsv.main_step
        (<[py "B1" ++ UselessProcessCsv.energy_metering :=
             {| UselessProcessCsv.entry_columns := [];
                UselessProcessCsv.entry_description := None |}]>
           mapping_default)
        B1_2024_csv table_ac).2 = Some None.
Proof.
  assert ((UselessProcessCsv.resolve_columns
             (<[py "B1" ++ UselessProcessCsv.energy_metering :=
                  {| UselessProcessCsv.entry_columns := [];
                     UselessProcessCsv.entry_description := None |}]>
                mapping_default)
             (UselessProcessCsv.get_file_keyword B1_2024_csv)).2 = Some [])
    as H by (vm_compute; reflexivity).
  split; [exact H |].
  exact (proj1 (empty_column_list_skips_file _ B1_2024_csv table_ac H)).
Defined.

Lemma keyword_ignores_directory_and_extension_witness :
  UselessProcessCsv.get_file_keyword
    (py "data/B1" ++ py "/"
     ++ (py "B2" ++ UselessProcessCsv.energy_metering ++ py "_2024")
     ++ py "." ++ py "L1" ++ UselessProcessCsv.energy_metering)
  = UselessProcessCsv.get_file_keyword
      ((py "B2" ++ UselessProcessCsv.energy_metering ++ py "_2024")
       ++ py ".csv").
Proof.
  apply (keyword_ignores_directory_and_extension (py "data/B1")
           (py "B2" ++ UselessProcessCsv.energy_metering ++ py "_2024")
           (py "L1" ++ UselessProcessCsv.energy_metering)).
  - discriminate.
  - apply (bool_decide_unpack _). vm_compute. exact I.
  - discriminate.
  - apply (bool_decide_unpack _). vm_compute. exact I.
  - apply (bool_decide_unpack _). vm_compute. exact I.
Defined.

End MoreInstances.
